(** * Subfinder + httpx recon tool: categorisation, parsing, display, orchestration

    A shallow embedding of [recon_tool.py] and the proofs of the properties
    its specification states about it.

    Conventions of the embedding:
    - a Python [str] is a [string] of 8-bit characters; the text operations
      ([lower], [strip], slicing, [len]) agree with Python's on ASCII text,
      and the glyphs of the constant display texts are written as their
      UTF-8 bytes;
    - a decoded JSON value is a [json]; JSON numbers are the integral ones
      (a number with a fraction or an exponent decodes to a Python float,
      which is outside this embedding);
    - a Python [dict] is a [gmap] with [string] keys; [d.get(k, v)] is
      [default v (d !! k)];
    - code that can raise returns a [res]: [Ok a] or [Raise e];
    - [print] appends one string per call to a list of printed strings. *)

From stdpp Require Import base option list strings gmap pretty.
From Stdlib Require Import ZArith Lia Ascii.

Local Open Scope string_scope.
Local Open Scope Z_scope.

(** ** Python values and primitives *)

Module Py.

(** The exceptions the embedded code can meet. [KeyboardInterrupt] and
    [SystemExit] are not subclasses of [Exception]; the others are. *)
Inductive exn : Type :=
| TypeError
| AttributeError
| OSError
| TimeoutExpired
| KeyboardInterrupt
| SystemExit (code : Z).

Definition is_Exception (e : exn) : bool :=
  match e with
  | TypeError | AttributeError | OSError | TimeoutExpired => true
  | KeyboardInterrupt | SystemExit _ => false
  end.

Inductive res (A : Type) : Type :=
| Ok (a : A)
| Raise (e : exn).
Arguments Ok {A} a.
Arguments Raise {A} e.

Definition bind {A B : Type} (x : res A) (f : A -> res B) : res B :=
  match x with
  | Ok a => f a
  | Raise e => Raise e
  end.

#[warnings="-register-all"]
Inductive json : Type :=
| JNull
| JBool (b : bool)
| JInt (n : Z)
| JStr (s : string)
| JArr (l : list json)
| JObj (o : gmap string json).

(** *** str methods *)

(** [s.startswith(p)] *)
Definition startswith (s p : string) : bool := String.prefix p s.

(** [sub in s] for two strings *)
Fixpoint contains (sub s : string) : bool :=
  String.prefix sub s ||
  match s with
  | EmptyString => false
  | String _ s' => contains sub s'
  end.

(** [s.replace(old, new)] for a non-empty [old]: the occurrences of [old]
    are found from the left and do not overlap. [skip] counts the characters
    of an occurrence still to be dropped. *)
Fixpoint replace_from (old new : string) (skip : nat) (s : string) : string :=
  match s with
  | EmptyString => EmptyString
  | String c s' =>
      match skip with
      | S k => replace_from old new k s'
      | O =>
          if String.prefix old s
          then new +:+ replace_from old new (Nat.pred (String.length old)) s'
          else String c (replace_from old new O s')
      end
  end.

Definition replace (s old new : string) : string := replace_from old new O s.

Definition lower_char (c : ascii) : ascii :=
  let n := nat_of_ascii c in
  if (Nat.leb 65 n && Nat.leb n 90)%bool then ascii_of_nat (n + 32)%nat else c.

Definition upper_char (c : ascii) : ascii :=
  let n := nat_of_ascii c in
  if (Nat.leb 97 n && Nat.leb n 122)%bool then ascii_of_nat (n - 32)%nat else c.

(** [s.upper()] *)
Fixpoint upper (s : string) : string :=
  match s with
  | EmptyString => EmptyString
  | String c s' => String (upper_char c) (upper s')
  end.

(** [s.lower()] *)
Fixpoint lower (s : string) : string :=
  match s with
  | EmptyString => EmptyString
  | String c s' => String (lower_char c) (lower s')
  end.

(** The ASCII characters [str.strip()] removes: tab, line feed, vertical
    tab, form feed, carriage return, the four separators 28 to 31, space. *)
Definition is_space (c : ascii) : bool :=
  let n := nat_of_ascii c in
  ((Nat.leb 9 n && Nat.leb n 13) || (Nat.leb 28 n && Nat.leb n 32))%bool.

Fixpoint lstrip (s : string) : string :=
  match s with
  | EmptyString => EmptyString
  | String c s' => if is_space c then lstrip s' else s
  end.

Fixpoint rstrip (s : string) : string :=
  match s with
  | EmptyString => EmptyString
  | String c s' =>
      match rstrip s' with
      | EmptyString => if is_space c then EmptyString else String c EmptyString
      | r => String c r
      end
  end.

(** [s.strip()] *)
Definition strip (s : string) : string := rstrip (lstrip s).

(** [s.split(sep)] for a one-character [sep]; [cur] is the piece being read. *)
Fixpoint split_from (sep : ascii) (cur : string) (s : string) : list string :=
  match s with
  | EmptyString => [cur]
  | String c s' =>
      if Ascii.eqb c sep then cur :: split_from sep EmptyString s'
      else split_from sep (cur +:+ String c EmptyString) s'
  end.

Definition split (s : string) (sep : ascii) : list string :=
  split_from sep EmptyString s.

(** What reading a file in text mode does to the line ends: a carriage
    return, with or without a line feed after it, is read as a line feed. *)
Fixpoint universal_newlines (s : string) : string :=
  match s with
  | EmptyString => EmptyString
  | String c s' =>
      if Ascii.eqb c "013" then
        String "010"
          match s' with
          | String c' s'' =>
              if Ascii.eqb c' "010" then universal_newlines s''
              else universal_newlines s'
          | EmptyString => EmptyString
          end
      else String c (universal_newlines s')
  end.

(** [for line in f]: the lines of a text, each with its line feed; a last
    line without one is a line too. *)
Fixpoint lines_from (cur : string) (s : string) : list string :=
  match s with
  | EmptyString => if cur is EmptyString then [] else [cur]
  | String c s' =>
      if Ascii.eqb c "010" then (cur +:+ String c EmptyString) :: lines_from EmptyString s'
      else lines_from (cur +:+ String c EmptyString) s'
  end.

Definition lines (s : string) : list string := lines_from EmptyString s.

(** [s[:n]] for [0 <= n] *)
Fixpoint str_take (n : nat) (s : string) : string :=
  match n, s with
  | S k, String c s' => String c (str_take k s')
  | _, _ => EmptyString
  end.

Fixpoint spaces (n : nat) : string :=
  match n with
  | O => EmptyString
  | S k => String " " (spaces k)
  end.

(** [s * n] *)
Fixpoint str_repeat (s : string) (n : nat) : string :=
  match n with
  | O => EmptyString
  | S k => s +:+ str_repeat s k
  end.

(** [f"{s:<w}"]: pad on the right up to width [w] *)
Definition ljust (w : nat) (s : string) : string :=
  s +:+ spaces (w - String.length s)%nat.

(** [f"{n:w}"] for a number: pad on the left up to width [w] *)
Definition rjust (w : nat) (s : string) : string :=
  spaces (w - String.length s)%nat +:+ s.

(** [len(s)] *)
Definition len (s : string) : Z := Z.of_nat (String.length s).

(** [str(n)] for an int *)
Definition str_of_int (n : Z) : string := pretty n.

(** [sep.join(l)] *)
Definition join (sep : string) (l : list string) : string := String.concat sep l.

(** *** list slices: [l[:n]] and [l[n:]], a negative [n] counting from the end *)
Definition slice_to {A : Type} (n : Z) (l : list A) : list A :=
  if 0 <=? n then take (Z.to_nat n) l
  else take (length l - Z.to_nat (- n))%nat l.

Definition slice_from {A : Type} (n : Z) (l : list A) : list A :=
  if 0 <=? n then drop (Z.to_nat n) l
  else drop (length l - Z.to_nat (- n))%nat l.

(** *** dynamic typing *)

(** The integer a value stands for in a comparison with an int: [bool] is a
    subclass of [int]. *)
Definition int_of (v : json) : option Z :=
  match v with
  | JInt n => Some n
  | JBool b => Some (if b then 1 else 0)
  | _ => None
  end.

(** [v == k] for an int literal [k]: never raises *)
Definition eq_int (v : json) (k : Z) : bool :=
  match int_of v with
  | Some n => n =? k
  | None => false
  end.

(** [v in [k1, k2, ...]] *)
Definition in_ints (v : json) (ks : list Z) : bool := existsb (eq_int v) ks.

(** The operand of an ordering comparison with an int: raises [TypeError]
    for a value that is not a number. *)
Definition number (v : json) : res Z :=
  match int_of v with
  | Some n => Ok n
  | None => Raise TypeError
  end.

(** Looking up a [str] method ([replace], [lower]) on a value: raises
    [AttributeError] for a value that is not a string. *)
Definition str_method (v : json) : res string :=
  match v with
  | JStr s => Ok s
  | _ => Raise AttributeError
  end.

(** Looking up [get] on a value: raises [AttributeError] for a value that is
    not a dict. *)
Definition dict_method (v : json) : res (gmap string json) :=
  match v with
  | JObj d => Ok d
  | _ => Raise AttributeError
  end.

End Py.

Import Py.

(** [x ← e; k] runs [e] and, unless it raised, goes on with [k]. *)
#[global] Instance res_bind : MBind res := fun A B f x => Py.bind x f.
#[global] Instance res_ret : MRet res := @Ok.

(** ** The categoriser: [class ReconCategorizer] *)

Module ReconCategorizer.

(** The dict [host_data] built for each result: five fixed keys. *)
Record host_data : Type := HostData {
  hd_url : string;
  hd_clean_url : string;
  hd_status_code : json;
  hd_title : json;
  hd_is_https : bool
}.

(** [stats[k] += 1] *)
Definition incr (k : string) (stats : gmap string Z) : gmap string Z :=
  <[k := stats !!! k + 1]> stats.

(** [m[k].append(x)]; on the [defaultdict(list)] a missing key starts from
    the empty list, which is what [!!!] reads there. *)
Definition append {A : Type} (k : string) (x : A) (m : gmap string (list A))
  : gmap string (list A) :=
  <[k := (m !!! k ++ [x])%list]> m.

Definition admin_keywords : list string :=
  ["admin"; "login"; "panel"; "dashboard"; "control"; "administrator"].
Definition api_keywords : list string :=
  ["api."; "/api"; "/v1"; "/v2"; "/v3"; "/graphql"; "/rest"].
Definition dev_ports : list string :=
  [":3000"; ":5000"; ":8000"; ":8080"; ":9000"; ":4200"].

Definition _check_interesting_finds (result : json)
    (interesting : gmap string (list json)) : res (gmap string (list json)) :=
  d ← dict_method result;
  url ← str_method (default (JStr "") (d !! "url"));
  let url := lower url in
  title ← str_method (default (JStr "") (d !! "title"));
  let title := lower title in
  let interesting :=
    if existsb (fun keyword => contains keyword url || contains keyword title)
               admin_keywords
    then append "admin_panels" (default (JStr url) (d !! "clean_url")) interesting
    else interesting in
  let interesting :=
    if existsb (fun keyword => contains keyword url) api_keywords
    then append "api_endpoints" (default (JStr url) (d !! "clean_url")) interesting
    else interesting in
  let interesting :=
    if existsb (fun port => contains port url) dev_ports
    then append "development_servers" (default (JStr url) (d !! "clean_url")) interesting
    else interesting in
  Ok interesting.

(** The three structures one pass builds. *)
Record state : Type := State {
  categorized : gmap string (list host_data);
  stats : gmap string Z;
  interesting : gmap string (list json)
}.

Definition initial_stats (n : Z) : gmap string Z :=
  list_to_map
    [("total_discovered", n); ("dns_resolved", n); ("online_hosts", n);
     ("web_services", 0); ("fully_operational", 0); ("https_only", 0);
     ("http_only", 0); ("redirects", 0); ("errors", 0); ("blocked", 0);
     ("no_response", 0)].

Definition initial_interesting : gmap string (list json) :=
  list_to_map
    [("admin_panels", []); ("api_endpoints", []);
     ("development_servers", []); ("shared_hosting", [])].

Definition initial_state (n : Z) : state :=
  State ∅ (initial_stats n) initial_interesting.

(** The body of the loop of [categorize_results] for one [result]: the
    result as the body leaves it (its [clean_url] key written) and the
    updated structures. *)
Definition categorize_one (result : json) (st : state) : res (json * state) :=
  d ← dict_method result;
  let status := default (JInt 0) (d !! "status_code") in
  let url := default (JStr "") (d !! "url") in
  url ← str_method url;
  let clean_url := replace (replace url "https://" "") "http://" "" in
  let d := <["clean_url" := JStr clean_url]> d in
  let result := JObj d in
  let is_https := startswith url "https://" in
  let host_data :=
    HostData url clean_url status (default (JStr "No Title") (d !! "title"))
             is_https in
  let '(State categorized stats interesting) := st in
  '(categorized, stats) ←
    (if eq_int status 200 then
       Ok (append "fully_operational" host_data categorized,
           incr "fully_operational" (incr "web_services" stats))
     else if in_ints status [301; 302; 307; 308] then
       Ok (append "redirects" host_data categorized,
           incr "redirects" (incr "web_services" stats))
     else if eq_int status 403 || eq_int status 401 then
       Ok (append "blocked" host_data categorized,
           incr "blocked" (incr "web_services" stats))
     else
       n ← number status;
       if (400 <=? n) && (n <? 500) then
         Ok (append "errors" host_data categorized,
             incr "errors" (incr "web_services" stats))
       else if n >=? 500 then
         Ok (append "errors" host_data categorized,
             incr "errors" (incr "web_services" stats))
       else if eq_int status 0 then
         Ok (append "no_response" host_data categorized,
             incr "no_response" stats)
       else
         Ok (append "fully_operational" host_data categorized,
             incr "web_services" stats));
  interesting ← _check_interesting_finds result interesting;
  Ok (result, State categorized stats interesting).

(** [for result in results: ...] *)
Fixpoint categorize_loop (results : list json) (st : state)
  : res (list json * state) :=
  match results with
  | [] => Ok ([], st)
  | result :: rest =>
      '(result, st) ← categorize_one result st;
      '(rest, st) ← categorize_loop rest st;
      Ok (result :: rest, st)
  end.

(** [categorize_results(results)]: the list [results] as the call leaves it,
    and the returned triple [(dict(categorized), stats, interesting)]. *)
Definition categorize_results (results : list json) : res (list json * state) :=
  categorize_loop results (initial_state (Z.of_nat (length results))).

End ReconCategorizer.

(** ** Host records and what one pass computes from them *)

Module HostRecord.
Import ReconCategorizer.

Definition is_str (v : json) : bool := if v is JStr _ then true else false.
Definition is_int (v : json) : bool := if v is JInt _ then true else false.

(** A key that is absent, or present with a value of the expected type. *)
Definition typed (ok : json → bool) (o : option json) : bool :=
  match o with
  | None => true
  | Some v => ok v
  end.

(** A host record: a dict whose [url] and [title], where present, are
    strings and whose [status_code], where present, is an integer. *)
Definition is_host_record (j : json) : bool :=
  match j with
  | JObj d =>
      typed is_str (d !! "url") && typed is_int (d !! "status_code")
      && typed is_str (d !! "title")
  | _ => false
  end.

Definition fields (j : json) : gmap string json :=
  if j is JObj d then d else ∅.

(** [result.get("url", "")] *)
Definition url_of (j : json) : string :=
  if fields j !! "url" is Some (JStr s) then s else "".

(** [result.get("status_code", 0)] *)
Definition status_of (j : json) : Z :=
  if fields j !! "status_code" is Some (JInt n) then n else 0.

(** [result.get("title", dflt)] *)
Definition title_of (dflt : string) (j : json) : string :=
  if fields j !! "title" is Some (JStr s) then s else dflt.

(** The clean URL of a URL: every occurrence of the two scheme markers
    removed, the secure one first. *)
Definition clean_url (url : string) : string :=
  replace (replace url "https://" "") "http://" "".

(** The record with its [clean_url] key written. *)
Definition with_clean_url (j : json) : json :=
  JObj (<["clean_url" := JStr (clean_url (url_of j))]> (fields j)).

Definition host_data_of (j : json) : host_data :=
  HostData (url_of j) (clean_url (url_of j)) (JInt (status_of j))
           (JStr (title_of "No Title" j)) (startswith (url_of j) "https://").

(** The bucket the chain of tests chooses for an integer status, and the
    counters it increments. *)
Definition bucket_of (n : Z) : string :=
  if n =? 200 then "fully_operational"
  else if existsb (Z.eqb n) [301; 302; 307; 308] then "redirects"
  else if (n =? 403) || (n =? 401) then "blocked"
  else if (400 <=? n) && (n <? 500) then "errors"
  else if n >=? 500 then "errors"
  else if n =? 0 then "no_response"
  else "fully_operational".

Definition counters_of (n : Z) : list string :=
  if n =? 200 then ["fully_operational"; "web_services"]
  else if existsb (Z.eqb n) [301; 302; 307; 308] then ["redirects"; "web_services"]
  else if (n =? 403) || (n =? 401) then ["blocked"; "web_services"]
  else if (400 <=? n) && (n <? 500) then ["errors"; "web_services"]
  else if n >=? 500 then ["errors"; "web_services"]
  else if n =? 0 then ["no_response"]
  else ["web_services"].

Definition admin_match (j : json) : bool :=
  existsb (λ keyword, contains keyword (lower (url_of j))
                      || contains keyword (lower (title_of "" j)))
          admin_keywords.
Definition api_match (j : json) : bool :=
  existsb (λ keyword, contains keyword (lower (url_of j))) api_keywords.
Definition dev_match (j : json) : bool :=
  existsb (λ port, contains port (lower (url_of j))) dev_ports.

Definition add_if {A : Type} (b : bool) (k : string) (x : A)
    (m : gmap string (list A)) : gmap string (list A) :=
  if b then append k x m else m.

(** The effect of one iteration on the three structures. *)
Definition step (st : state) (j : json) : state :=
  let c := JStr (clean_url (url_of j)) in
  State (append (bucket_of (status_of j)) (host_data_of j) (categorized st))
        (foldr incr (stats st) (counters_of (status_of j)))
        (add_if (dev_match j) "development_servers" c
           (add_if (api_match j) "api_endpoints" c
              (add_if (admin_match j) "admin_panels" c (interesting st)))).

(** The hosts of the records that the chain sends to bucket [k], in input
    order. *)
Definition bucket (k : string) (rs : list json) : list host_data :=
  host_data_of <$> filter (λ j, bucket_of (status_of j) = k) rs.

(** How many of the records increment counter [k]. *)
Definition hits (k : string) (rs : list json) : Z :=
  Z.of_nat (length (filter (λ j, k ∈ counters_of (status_of j)) rs)).

(** The test that sends a record to the interesting group [g]. *)
Definition group_match (g : string) (j : json) : bool :=
  if bool_decide (g = "admin_panels") then admin_match j
  else if bool_decide (g = "api_endpoints") then api_match j
  else if bool_decide (g = "development_servers") then dev_match j
  else false.

(** A record lands in bucket [k]: its host is in that bucket and in no
    other. *)
Definition lands_in (st : state) (j : json) (k : string) : Prop :=
  host_data_of j ∈ categorized st !!! k
  ∧ ∀ k', host_data_of j ∈ categorized st !!! k' → k' = k.

(** What the records contribute to the interesting group [g], in input
    order. *)
Definition group (g : string) (rs : list json) : list json :=
  (λ j, JStr (clean_url (url_of j))) <$> filter (λ j, group_match g j = true) rs.

(** Two records for the examples of the specification: a status that no
    rule names, and the administration page answering 200. *)
Definition created_record : json :=
  JObj (<["url" := JStr "http://a.example.com"]>
          (<["status_code" := JInt 201]> ∅)).

Definition admin_record : json :=
  JObj (<["url" := JStr "https://admin.example.com/login"]>
          (<["title" := JStr "Portal"]> (<["status_code" := JInt 200]> ∅))).

(** A status that none of the rules before the fallback names: not 200,
    not a redirect, not 401 or 403, not from 400 to 499, not 500 or more,
    not 0. *)
Definition unmatched (n : Z) : bool :=
  negb (n =? 200) && negb (existsb (Z.eqb n) [301; 302; 307; 308])
  && negb (n =? 401) && negb (n =? 403)
  && negb ((400 <=? n) && (n <? 500)) && negb (500 <=? n) && negb (n =? 0).

(** What a record contributes to an interesting group. *)
Definition contribution (j : json) : json := JStr (clean_url (url_of j)).

(** The exception one iteration raises on a value, if it raises: the value
    is not a dict, or its [url] is not a string (looking up [get] or
    [replace] fails); else its [status_code] is not a number (the
    comparison with 400 fails); else its [title] is not a string (looking
    up [lower] fails). *)
Definition fault_of (j : json) : option exn :=
  match j with
  | JObj d =>
      if negb (typed is_str (d !! "url")) then Some AttributeError
      else if negb (typed (λ v, bool_decide (is_Some (int_of v))) (d !! "status_code"))
      then Some TypeError
      else if negb (typed is_str (d !! "title")) then Some AttributeError
      else None
  | _ => Some AttributeError
  end.

Definition faultless (j : json) : bool :=
  if fault_of j is None then true else false.

(** Records for the examples: a status given as a string, a status given
    as the JSON value [true], and a record with a [url] only. *)
Definition quoted_status_record : json :=
  JObj (<["url" := JStr "http://a.example.com"]>
          (<["status_code" := JStr "200"]> ∅)).

Definition true_status_record : json :=
  JObj (<["url" := JStr "http://a.example.com"]>
          (<["status_code" := JBool true]> ∅)).

Definition bare_record : json :=
  JObj (<["url" := JStr "https://b.example.com"]> ∅).

End HostRecord.

(** ** The display: [class Colors] and [class OutputManager] *)

Module Colors.

Definition ESC : string := String (ascii_of_nat 27) "[".

Definition RED : string := ESC +:+ "91m".
Definition GREEN : string := ESC +:+ "92m".
Definition YELLOW : string := ESC +:+ "93m".
Definition BLUE : string := ESC +:+ "94m".
Definition MAGENTA : string := ESC +:+ "95m".
Definition CYAN : string := ESC +:+ "96m".
Definition WHITE : string := ESC +:+ "97m".
Definition BRIGHT_YELLOW : string := ESC +:+ "93m".
Definition RESET : string := ESC +:+ "0m".
Definition BOLD : string := ESC +:+ "1m".
Definition DIM : string := ESC +:+ "2m".

(** [getattr(Colors, name, dflt)] for the colour names of the class *)
Definition getattr (name dflt : string) : string :=
  if String.eqb name "RED" then RED
  else if String.eqb name "GREEN" then GREEN
  else if String.eqb name "YELLOW" then YELLOW
  else if String.eqb name "BLUE" then BLUE
  else if String.eqb name "MAGENTA" then MAGENTA
  else if String.eqb name "CYAN" then CYAN
  else if String.eqb name "WHITE" then WHITE
  else if String.eqb name "BRIGHT_YELLOW" then BRIGHT_YELLOW
  else if String.eqb name "RESET" then RESET
  else if String.eqb name "BOLD" then BOLD
  else if String.eqb name "DIM" then DIM
  else dflt.

End Colors.

Module OutputManager.
Import ReconCategorizer.

(** The two attributes [__init__] stores. *)
Record self : Type := Self {
  max_hosts : Z;
  group_by_ip : bool
}.

Definition print_warning (message : string) : list string :=
  [Colors.YELLOW +:+ "[!]" +:+ Colors.RESET +:+ " " +:+ message].

(** The sum [display_category_overview] starts with: the hosts of all the
    categories together. *)
Definition total_hosts (categorized_hosts : gmap string (list host_data)) : Z :=
  map_fold (λ _ hosts total,
              if hosts is [] then total else total + Z.of_nat (length hosts))
           0 categorized_hosts.

Definition category_order : list string :=
  ["fully_operational"; "https_only"; "http_only"; "redirects"; "errors";
   "blocked"; "no_response"].

Record config : Type := Config {
  icon : string;
  name : string;
  color : string
}.

Definition _get_category_config (category : string) : config :=
  if String.eqb category "fully_operational" then Config "✅" "FULLY OPERATIONAL" "GREEN"
  else if String.eqb category "https_only" then Config "🔐" "HTTPS ONLY" "BLUE"
  else if String.eqb category "http_only" then Config "⚠️" "HTTP ONLY" "YELLOW"
  else if String.eqb category "redirects" then Config "↪️" "REDIRECTING" "MAGENTA"
  else if String.eqb category "errors" then Config "🚨" "SERVER ERRORS" "RED"
  else if String.eqb category "blocked" then Config "🚫" "ACCESS BLOCKED" "RED"
  else if String.eqb category "no_response" then Config "🔴" "NO RESPONSE" "BRIGHT_YELLOW"
  else Config "📌" (upper category) "WHITE".

Definition rule : string := str_repeat "─" 70.

(** [host.get("title", "No Title")[:40]]: a string is cut to its first 40
    characters; a list is sliced too but then fails at the format
    specification of the line, and the other values cannot be sliced. *)
Definition title_40 (title : json) : res string :=
  match title with
  | JStr s => Ok (str_take 40 s)
  | _ => Raise TypeError
  end.

(** [f"{status:4}"]: a number is put to the right, a string to the left. *)
Definition format_status (status : json) : res string :=
  match status with
  | JInt n => Ok (rjust 4 (str_of_int n))
  | JBool b => Ok (rjust 4 (if b then "1" else "0"))
  | JStr s => Ok (ljust 4 s)
  | _ => Raise TypeError
  end.

(** The two fields [_display_host] shortens, from the [url] and the [title]
    it has read. *)
Definition url_display (url : string) : string :=
  if len url >? 40 then str_take 37 url +:+ "..." else url.

Definition title_display (title : string) : string :=
  if len title >? 40 then str_take 37 title +:+ "..." else title.

Definition _display_host (host : host_data) (index : Z) (color : string)
  : res (list string) :=
  let url := hd_clean_url host in
  let status := hd_status_code host in
  title ← title_40 (hd_title host);
  let color_code := Colors.getattr (upper color) Colors.WHITE in
  status ← format_status status;
  Ok ["  " +:+ Colors.DIM +:+ rjust 3 (str_of_int index) +:+ "." +:+ Colors.RESET
      +:+ " " +:+ color_code +:+ status +:+ Colors.RESET
      +:+ " " +:+ Colors.CYAN +:+ ljust 43 (url_display url) +:+ Colors.RESET
      +:+ " " +:+ Colors.WHITE +:+ ljust 43 (title_display title) +:+ Colors.RESET].

(** [for i, host in enumerate(hosts, i): self._display_host(host, i, color)] *)
Fixpoint display_hosts (hosts : list host_data) (i : Z) (color : string)
  : res (list string) :=
  match hosts with
  | [] => Ok []
  | host :: hosts =>
      line ← _display_host host i color;
      lines ← display_hosts hosts (i + 1) color;
      Ok (line ++ lines)%list
  end.

Definition count (hosts : list host_data) : Z := Z.of_nat (length hosts).

Definition _display_small_category (category : string) (hosts : list host_data)
  : res (list string) :=
  let c := _get_category_config category in
  let color_code := Colors.getattr (color c) Colors.WHITE in
  let header :=
    [String "010" (color_code +:+ rule);
     icon c +:+ " " +:+ name c +:+ " (" +:+ str_of_int (count hosts)
       +:+ " hosts - Showing ALL)";
     rule +:+ Colors.RESET] in
  lines ← display_hosts hosts 1 (lower (color c));
  Ok (header ++ lines)%list.

Definition _display_large_category (o : self) (category : string)
    (hosts : list host_data) : res (list string) :=
  let c := _get_category_config category in
  let color_code := Colors.getattr (color c) Colors.WHITE in
  let header :=
    [String "010" (color_code +:+ rule);
     icon c +:+ " " +:+ name c +:+ " (" +:+ str_of_int (count hosts)
       +:+ " hosts - Showing top " +:+ str_of_int (max_hosts o) +:+ ")";
     rule +:+ Colors.RESET] in
  let warning :=
    print_warning ("Large category! Showing " +:+ str_of_int (max_hosts o)
                   +:+ " of " +:+ str_of_int (count hosts) +:+ " hosts.") in
  lines ← display_hosts (slice_to (max_hosts o) hosts) 1 (lower (color c));
  let remaining := count hosts - max_hosts o in
  let not_shown :=
    if remaining >? 0 then
      let remaining_hosts := slice_from (max_hosts o) hosts in
      let sample : list string := hd_clean_url <$> slice_to 3 remaining_hosts in
      String "010" (Colors.YELLOW +:+ "Not shown (" +:+ str_of_int remaining
                    +:+ " hosts):" +:+ Colors.RESET)
      :: (if Z.of_nat (length sample) >? 0 then
            let sample_str := join ", " sample in
            let sample_str :=
              if remaining >? 3
              then sample_str +:+ " ... (+" +:+ str_of_int (remaining - 3) +:+ " more)"
              else sample_str in
            ["  " +:+ Colors.BRIGHT_YELLOW +:+ "•" +:+ Colors.RESET +:+ " "
             +:+ sample_str]
          else [])
    else [] in
  Ok (header ++ warning ++ lines ++ not_shown)%list.

(** The body of the loop of [display_categorized_results] for one category. *)
Definition display_category (o : self)
    (categorized_hosts : gmap string (list host_data)) (category : string)
  : res (list string) :=
  match categorized_hosts !! category with
  | Some ((_ :: _) as hosts) =>
      if count hosts >? max_hosts o
      then _display_large_category o category hosts
      else _display_small_category category hosts
  | _ => Ok []
  end.

Fixpoint display_categories (o : self)
    (categorized_hosts : gmap string (list host_data))
    (categories : list string) : res (list string) :=
  match categories with
  | [] => Ok []
  | category :: categories =>
      section ← display_category o categorized_hosts category;
      sections ← display_categories o categorized_hosts categories;
      Ok (section ++ sections)%list
  end.

Definition display_categorized_results (o : self)
    (categorized_hosts : gmap string (list host_data)) : res (list string) :=
  display_categories o categorized_hosts category_order.

(** A host whose line can be printed: its title is a string and its status
    a number or a string. *)
Definition renderable (host : host_data) : bool :=
  (if hd_title host is JStr _ then true else false)
  && (if hd_status_code host is (JInt _ | JBool _ | JStr _) then true else false).

(** The line [_display_host] prints for a host. *)
Definition host_line (host : host_data) (index : Z) (color : string) : string :=
  if _display_host host index color is Ok [line] then line else "".

(** The lines of the hosts of a list, numbered from [i]. *)
Definition host_lines (hosts : list host_data) (i : Z) (color : string)
  : list string :=
  imap (λ k host, host_line host (i + Z.of_nat k) color) hosts.

(** The three lines that open the section of a category; [mode] is the end
    of the second. *)
Definition section_header (category : string) (hosts : list host_data)
    (mode : string) : list string :=
  let c := _get_category_config category in
  [String "010" (Colors.getattr (color c) Colors.WHITE +:+ rule);
   icon c +:+ " " +:+ name c +:+ " (" +:+ str_of_int (count hosts)
     +:+ " hosts - " +:+ mode +:+ ")";
   rule +:+ Colors.RESET].

(** The line that tells how many hosts are hidden, and the line that
    previews the clean URLs [sample] with, for [more] further hosts, the
    suffix counting them. *)
Definition not_shown_line (hidden : Z) : string :=
  String "010" (Colors.YELLOW +:+ "Not shown (" +:+ str_of_int hidden
                +:+ " hosts):" +:+ Colors.RESET).

(** Hosts for the examples: the host answering 200 at [https://h<i>.example.com],
    with a title of 45 characters. *)
Definition example_host (i : Z) : host_data :=
  HostData ("https://h" +:+ str_of_int i +:+ ".example.com")
           ("h" +:+ str_of_int i +:+ ".example.com") (JInt 200)
           (JStr "An example page title that is far too long to") true.

Definition example_hosts : list host_data :=
  example_host <$> [1; 2; 3; 4; 5; 6; 7].

Definition preview_line (sample : list string) (more : option Z) : string :=
  "  " +:+ Colors.BRIGHT_YELLOW +:+ "•" +:+ Colors.RESET +:+ " "
  +:+ (if more is Some k
       then join ", " sample +:+ " ... (+" +:+ str_of_int k +:+ " more)"
       else join ", " sample).

End OutputManager.

(** ** Files and control: the effects of the orchestration

    The state is the set of files, a map from path to content. A computation
    takes the files and gives a result, or the exception it raised, and the
    files it leaves. What the orchestration prints is not part of this
    state. *)

Module IO.

Definition io (A : Type) : Type :=
  gmap string string → res A * gmap string string.

#[global] Instance io_bind : MBind io := λ A B f m files,
  match m files with
  | (Ok a, files) => f a files
  | (Raise e, files) => (Raise e, files)
  end.

#[global] Instance io_ret : MRet io := λ A a files, (Ok a, files).

Definition raise {A : Type} (e : exn) : io A := λ files, (Raise e, files).

(** A computation without effect on the files. *)
Definition lift {A : Type} (r : res A) : io A := λ files, (r, files).

(** [sys.exit(code)] *)
Definition sys_exit {A : Type} (code : Z) : io A := raise (SystemExit code).

(** [try: body] with its [except] clauses: [handler e] is the clause that
    catches [e], if one does. *)
Definition try_except {A : Type} (body : io A) (handler : exn → option (io A))
  : io A := λ files,
  match body files with
  | (Ok a, files) => (Ok a, files)
  | (Raise e, files) =>
      match handler e with
      | Some h => h files
      | None => (Raise e, files)
      end
  end.

(** [os.path.exists(path)] *)
Definition os_path_exists (path : string) : io bool := λ files,
  (Ok (bool_decide (is_Some (files !! path))), files).

(** [open(path, "r")] and [f.read()] *)
Definition read (path : string) : io string := λ files,
  match files !! path with
  | Some content => (Ok (universal_newlines content), files)
  | None => (Raise OSError, files)
  end.

(** [open(path, "w")] and one [f.write(line + "\n")] per line *)
Definition write_lines (path : string) (ls : list string) : io unit := λ files,
  (Ok (), <[path := String.concat "" ((λ l, l +:+ String "010" "") <$> ls)]> files).

(** [os.remove(path)] *)
Definition os_remove (path : string) : io unit := λ files,
  match files !! path with
  | Some _ => (Ok (), delete path files)
  | None => (Raise OSError, files)
  end.

(** What [subprocess.run] returns when the process has run. *)
Record completed : Type := Completed {
  returncode : Z;
  stdout : string;
  stderr : string
}.

End IO.

(** ** The parser: [parse_httpx_results] *)

Module Parser.
Import IO.

Section WithDecoder.

(** [json.loads]: the decoded value, or [None] where it raises
    [json.JSONDecodeError]. *)
Context (json_loads : string → option json).

(** ["url" in data]: a key of a dict, an element of a list, a part of a
    string; the other values are not containers. *)
Definition has_url (data : json) : res bool :=
  match data with
  | JObj d => Ok (bool_decide (is_Some (d !! "url")))
  | JArr l => Ok (existsb (λ v, if v is JStr s then String.eqb s "url" else false) l)
  | JStr s => Ok (contains "url" s)
  | JNull | JBool _ | JInt _ => Raise TypeError
  end.

(** [for line in f: ...], from the [results] read so far *)
Fixpoint parse_lines (ls : list string) (results : list json) : res (list json) :=
  match ls with
  | [] => Ok results
  | line :: ls =>
      let line := strip line in
      if String.eqb line "" then parse_lines ls results
      else
        match json_loads line with
        | Some data =>
            found ← has_url data;
            if found : bool then parse_lines ls (results ++ [data])%list
            else parse_lines ls results
        | None => parse_lines ls results
        end
  end.

Definition parse_httpx_results (results_file : string) : io (list json) :=
  found ← os_path_exists results_file;
  if negb found then mret []
  else
    content ← read results_file;
    lift (parse_lines (lines content) []).

(** The record a line gives when it is not blank and decodes to a dict
    with a [url] key. *)
Definition record_of (line : string) : option json :=
  let line := strip line in
  if String.eqb line "" then None
  else
    match json_loads line with
    | Some (JObj d) => if bool_decide (is_Some (d !! "url")) then Some (JObj d) else None
    | _ => None
    end.

(** A line that is blank, or does not decode, or decodes to a dict. *)
Definition dict_or_skipped (line : string) : bool :=
  let line := strip line in
  String.eqb line ""
  || match json_loads line with
     | None | Some (JObj _) => true
     | Some _ => false
     end.

(** A line that decodes to [null], a boolean or a number. *)
Definition scalar_line (line : string) : bool :=
  let line := strip line in
  negb (String.eqb line "")
  && match json_loads line with
     | Some (JNull | JBool _ | JInt _) => true
     | _ => false
     end.

End WithDecoder.

(** Four lines for the examples, and a decoder that knows them. *)
Definition quoted (s : string) : string :=
  String (ascii_of_nat 34) s +:+ String (ascii_of_nat 34) "".

Definition url_line : string :=
  "{" +:+ quoted "url" +:+ ": " +:+ quoted "http://a.example.com" +:+ "}".
Definition status_line : string := "{" +:+ quoted "status_code" +:+ ": 200}".
Definition list_line : string := "[" +:+ quoted "url" +:+ "]".
Definition number_line : string := "5".

Definition example_loads (line : string) : option json :=
  if String.eqb line url_line
  then Some (JObj (<["url" := JStr "http://a.example.com"]> ∅))
  else if String.eqb line status_line
  then Some (JObj (<["status_code" := JInt 200]> ∅))
  else if String.eqb line list_line then Some (JArr [JStr "url"])
  else if String.eqb line number_line then Some (JInt 5)
  else None.

End Parser.

(** ** The report: the data [save_enhanced_results] assembles *)

Module Report.
Import ReconCategorizer.

(** The dict [enhanced]; [metadata] is written out as its four keys. *)
Record enhanced : Type := Enhanced {
  metadata_domain : string;
  metadata_timestamp : string;
  metadata_tool : string;
  metadata_total_results : Z;
  statistics : gmap string Z;
  categorized_results : gmap string (list host_data);
  interesting_finds : gmap string (list json);
  raw_data : list json
}.

Definition enhanced_of (results : list json)
    (categorized : gmap string (list host_data)) (stats : gmap string Z)
    (interesting : gmap string (list json)) (domain now : string) : enhanced :=
  Enhanced domain now "subfinder_httpx_v4.0" (Z.of_nat (length results))
           stats categorized interesting results.

End Report.

(** ** The orchestration: [run_subfinder], [run_httpx] and [main] *)

Module Orchestrator.
Import IO ReconCategorizer.

Section WithCollaborators.

(** The two external tools as [subprocess.run] runs them: [subfinder] on a
    domain and an output file, [httpx] in simple or full mode on its input.
    Either may raise instead of completing (the tool is missing, the time
    is out, the user interrupts), and may write files. *)
Context (subfinder : string → string → io completed).
Context (httpx : bool → string → io completed).
Context (json_loads : string → option json).

(** The clock and the directory of the temporary files. *)
Context (timestamp : Z) (now : string) (temp_dir : string).

(** The steps of the display other than the detailed listing, and the
    writing of the report files from the assembled data; each may raise. *)
Context (display_quick_stats : gmap string Z → io unit).
Context (display_category_overview : gmap string (list host_data) → io unit).
Context (display_interesting_finds : gmap string (list json) → io unit).
Context (write_reports : Report.enhanced → string → io unit).

Definition nonblank (ls : list string) : list string :=
  filter (λ l, l ≠ "") (strip <$> ls).

(** [except Exception: ...] *)
Definition except_Exception {A : Type} (h : io A) (e : exn) : option (io A) :=
  if is_Exception e then Some h else None.

Definition run_subfinder (domain output_file : string) : io bool :=
  try_except
    (result ← subfinder domain output_file;
     if negb (returncode result =? 0) then mret false
     else
       found ← os_path_exists output_file;
       if found : bool then
         content ← read output_file;
         let subdomains := nonblank (lines content) in
         if subdomains is [] then mret false else mret true
       else mret false)
    (except_Exception (mret false)).

Definition run_httpx (input_file output_file : string) (simple_mode : bool)
  : io bool :=
  found ← os_path_exists input_file;
  if negb found then mret false
  else
    subdomain_list ← read input_file;
    try_except
      (result ← httpx simple_mode subdomain_list;
       if (returncode result =? 0) && negb (String.eqb (stdout result) "") then
         let ls := nonblank (split (stdout result) "010") in
         if ls is [] then mret false
         else
           _ ← write_lines output_file ls;
           mret true
       else mret false)
      (except_Exception (mret false)).

(** [save_enhanced_results]: the data it assembles, handed to the writing of
    the two report files. *)
Definition save_enhanced_results (results : list json) (st : state)
    (domain output_dir : string) : io unit :=
  write_reports
    (Report.enhanced_of results (categorized st) (stats st) (interesting st)
                        domain now)
    output_dir.

(** The loop under [# Cleanup] *)
Fixpoint cleanup (temp_files : list string) : io unit :=
  match temp_files with
  | [] => mret ()
  | temp_file :: temp_files =>
      found ← os_path_exists temp_file;
      _ ← (if found : bool
           then try_except (os_remove temp_file) (λ _, Some (mret ()))
           else mret ());
      cleanup temp_files
  end.

(** The parsing of [--max-hosts] in [main]; [int] is Python's conversion of
    a string to an integer, [None] where it raises [ValueError]. *)
Definition max_hosts_of (int : string → option Z) (arg : string) : res Z :=
  if String.eqb (lower arg) "all" then Ok 999999
  else
    match int arg with
    | Some max_hosts => if max_hosts <? 1 then Raise (SystemExit 1) else Ok max_hosts
    | None => Raise (SystemExit 1)
    end.

Definition subs_file (domain : string) : string :=
  temp_dir +:+ "/subs_" +:+ domain +:+ "_" +:+ str_of_int timestamp +:+ ".txt".

Definition alive_file (domain : string) : string :=
  temp_dir +:+ "/alive_" +:+ domain +:+ "_" +:+ str_of_int timestamp +:+ ".json".

(** [main] from the naming of the temporary files on, for the parsed
    arguments. The result [Ok ()] is the normal end of the program;
    [Raise (SystemExit code)] is an exit with that code. *)
Definition main (domain output_dir : string) (simple : bool)
    (output : OutputManager.self) : io unit :=
  let subs_file := subs_file domain in
  let alive_file := alive_file domain in
  try_except
    (ok ← run_subfinder domain subs_file;
     if negb ok then sys_exit 1
     else
       ok ← run_httpx subs_file alive_file simple;
       if negb ok then sys_exit 1
       else
         results ← Parser.parse_httpx_results json_loads alive_file;
         if results is [] then sys_exit 1
         else
           '(results, st) ← lift (categorize_results results);
           _ ← display_quick_stats (stats st);
           _ ← display_category_overview (categorized st);
           _ ← lift (OutputManager.display_categorized_results
                       output (categorized st));
           _ ← display_interesting_finds (interesting st);
           _ ← save_enhanced_results results st domain output_dir;
           cleanup [subs_file; alive_file])
    (λ e,
       match e with
       | KeyboardInterrupt => Some (sys_exit 0)
       | SystemExit _ => None
       | _ => Some (sys_exit 1)
       end).

End WithCollaborators.

(** Collaborators for the examples: a discovery that writes one host name
    to its output file, a probing that fails, a probing that answers with
    the given output, and steps that do nothing. *)
Definition subfinder_one_host : string → string → io completed :=
  λ _ output_file files,
    (Ok (Completed 0 "" ""), <[output_file := "a.example.com"]> files).

Definition httpx_failing : bool → string → io completed :=
  λ _ _ files, (Ok (Completed 1 "" ""), files).

Definition httpx_answering (out : string) : bool → string → io completed :=
  λ _ _ files, (Ok (Completed 0 out ""), files).

Definition nothing {A : Type} : A → io unit := λ _, mret ().

(** The text [run_httpx] writes for the lines it keeps. *)
Definition written (ls : list string) : string :=
  String.concat "" ((λ l, l +:+ String "010" "") <$> ls).

(** A discovery that the user interrupts, and one that ends with the
    return code 2. *)
Definition subfinder_interrupted : string → string → io completed :=
  λ _ _ files, (Raise KeyboardInterrupt, files).

Definition subfinder_failing : string → string → io completed :=
  λ _ _ files, (Ok (Completed 2 "" ""), files).

End Orchestrator.

(** ** The panel of the interesting finds: [display_interesting_finds] *)

Module Panels.

Definition is_letter (c : ascii) : bool :=
  let n := nat_of_ascii c in
  ((Nat.leb 65 n && Nat.leb n 90) || (Nat.leb 97 n && Nat.leb n 122))%bool.

(** [s.title()]: a letter after a letter is put in lower case, a letter
    after anything else, or in front, in upper case. *)
Fixpoint title_from (after_letter : bool) (s : string) : string :=
  match s with
  | EmptyString => EmptyString
  | String c s' =>
      if is_letter c
      then String (if after_letter then lower_char c else upper_char c)
                  (title_from true s')
      else String c (title_from false s')
  end.

Definition title (s : string) : string := title_from false s.

Definition bullet (host : string) : string := "  • " +:+ host.

(** The body of the loop over [interesting.items()] for one group. *)
Definition display_group (category : string) (hosts : list string) : list string :=
  if hosts is [] then []
  else
    String "010" (Colors.YELLOW +:+ title (replace category "_" " ") +:+ ": ("
                  +:+ str_of_int (Z.of_nat (length hosts)) +:+ " found)"
                  +:+ Colors.RESET)
    :: (if Z.of_nat (length hosts) <=? 10 then bullet <$> hosts
        else
          (bullet <$> slice_to 8 hosts)
          ++ ["  " +:+ Colors.BRIGHT_YELLOW +:+ "... and "
              +:+ str_of_int (Z.of_nat (length hosts) - 8) +:+ " more"
              +:+ Colors.RESET])%list.

(** [display_interesting_finds], on the items of the dict in its order; the
    entries are the strings that [_check_interesting_finds] appends. *)
Definition display_interesting_finds (interesting : list (string * list string))
  : list string :=
  if negb (existsb (λ item, if item.2 is [] then false else true) interesting)
  then []
  else
    ([String "010" (Colors.MAGENTA +:+ "🎯 INTERESTING FINDS" +:+ Colors.RESET);
      OutputManager.rule]
     ++ concat ((λ item, display_group item.1 item.2) <$> interesting))%list.

End Panels.

(** * Properties *)

(** ** The categoriser on host records *)

Module CategorizerFacts.
Import ReconCategorizer HostRecord.

Lemma eq_int_JInt n k : eq_int (JInt n) k = (n =? k).
Proof. reflexivity. Qed.

Lemma in_ints_JInt n ks : in_ints (JInt n) ks = existsb (Z.eqb n) ks.
Proof. reflexivity. Qed.

(** On a host record the three [get]s read typed values. *)
Lemma host_record_fields j :
  is_host_record j = true →
  ∃ d, j = JObj d
    ∧ default (JStr "") (d !! "url") = JStr (url_of j)
    ∧ default (JInt 0) (d !! "status_code") = JInt (status_of j)
    ∧ (∀ dflt, default (JStr dflt) (d !! "title") = JStr (title_of dflt j)).
Proof.
  destruct j as [| | | | |d]; try discriminate. intros H. exists d.
  unfold url_of, status_of, title_of; simpl in *.
  destruct (d !! "url") as [[]|]; try discriminate;
  destruct (d !! "status_code") as [[]|]; try discriminate;
  destruct (d !! "title") as [[]|]; try discriminate; auto.
Qed.

Lemma check_interesting_finds_str d int u t :
  default (JStr "") (d !! "url") = JStr u →
  default (JStr "") (d !! "title") = JStr t →
  _check_interesting_finds (JObj d) int =
  Ok (let c := default (JStr (lower u)) (d !! "clean_url") in
      add_if (existsb (λ port, contains port (lower u)) dev_ports)
        "development_servers" c
        (add_if (existsb (λ keyword, contains keyword (lower u)) api_keywords)
           "api_endpoints" c
           (add_if (existsb (λ keyword, contains keyword (lower u)
                                        || contains keyword (lower t))
                            admin_keywords)
              "admin_panels" c int))).
Proof.
  intros Hu Ht. unfold _check_interesting_finds.
  cbn [dict_method mbind res_bind Py.bind]. rewrite Hu, Ht. reflexivity.
Qed.

Local Ltac finish H :=
  cbn [mbind res_bind Py.bind]; rewrite H; reflexivity.

(** One iteration on a host record never raises and is [step]. *)
Lemma categorize_one_host_record j st :
  is_host_record j = true →
  categorize_one j st = Ok (with_clean_url j, step st j).
Proof.
  intros H. destruct (host_record_fields j H) as (d & -> & Hu & Hs & Ht).
  destruct st as [cat sts int].
  set (d' := <["clean_url" := JStr (clean_url (url_of (JObj d)))]> d).
  assert (Hint : ∀ int',
    _check_interesting_finds (JObj d') int' =
    Ok (interesting (step (State cat sts int') (JObj d)))).
  { intros int'.
    rewrite (check_interesting_finds_str d' int' (url_of (JObj d))
               (title_of "" (JObj d))).
    - unfold d'. rewrite lookup_insert_eq. reflexivity.
    - unfold d'. rewrite lookup_insert_ne by done. exact Hu.
    - unfold d'. rewrite lookup_insert_ne by done. apply Ht. }
  unfold categorize_one, with_clean_url. simpl dict_method. simpl fields.
  cbn [mbind res_bind Py.bind].
  rewrite Hu, Hs. cbn [str_method mbind res_bind Py.bind].
  fold (clean_url (url_of (JObj d))). fold d'.
  replace (default (JStr "No Title") (d' !! "title"))
    with (JStr (title_of "No Title" (JObj d)))
    by (unfold d'; rewrite lookup_insert_ne by done; symmetry; apply Ht).
  fold (host_data_of (JObj d)).
  rewrite !eq_int_JInt, in_ints_JInt.
  unfold step, bucket_of, counters_of. cbn [categorized stats].
  set (n := status_of (JObj d)).
  cbn [number int_of mbind res_bind Py.bind].
  destruct (n =? 200); [finish Hint|].
  destruct (existsb (Z.eqb n) [301; 302; 307; 308]); [finish Hint|].
  destruct ((n =? 403) || (n =? 401)); [finish Hint|].
  destruct ((400 <=? n) && (n <? 500)); [finish Hint|].
  destruct (n >=? 500); [finish Hint|].
  destruct (n =? 0); finish Hint.
Qed.

(** The loop on host records never raises: it writes [clean_url] into each
    record and folds [step]. *)
Lemma categorize_loop_host_records rs st :
  forallb is_host_record rs = true →
  categorize_loop rs st = Ok (with_clean_url <$> rs, foldl step st rs).
Proof.
  revert st. induction rs as [|j rs IH]; intros st H; [reflexivity|].
  simpl in H. apply andb_prop in H as [Hj Hrs].
  cbn [categorize_loop]. rewrite (categorize_one_host_record j st Hj).
  cbn [mbind res_bind Py.bind]. rewrite (IH _ Hrs). reflexivity.
Qed.

Lemma append_lookup {A} k (x : A) m k' :
  append k x m !! k' =
  if decide (k = k') then Some (m !!! k ++ [x])%list else m !! k'.
Proof. unfold append. apply lookup_insert. Qed.

Lemma append_lookup_total {A} k (x : A) m k' :
  append k x m !!! k' =
  if decide (k = k') then (m !!! k ++ [x])%list else m !!! k'.
Proof.
  unfold append. case_decide as E.
  - subst. apply lookup_total_insert_eq.
  - by apply lookup_total_insert_ne.
Qed.

Lemma incr_lookup_total k s k' :
  incr k s !!! k' = if decide (k = k') then s !!! k + 1 else s !!! k'.
Proof.
  unfold incr. case_decide as E.
  - subst. apply lookup_total_insert_eq.
  - by apply lookup_total_insert_ne.
Qed.

Lemma incr_is_Some k s k' : is_Some (s !! k') → is_Some (incr k s !! k').
Proof.
  intros H. unfold incr. rewrite lookup_insert. case_decide; eauto.
Qed.

Lemma bucket_cons k j rs :
  bucket k (j :: rs) =
  if decide (bucket_of (status_of j) = k) then host_data_of j :: bucket k rs
  else bucket k rs.
Proof. unfold bucket. rewrite filter_cons. by case_decide. Qed.

(** The buckets after the loop: bucket [k] gains the hosts of [bucket k rs]
    at its end, and a key is created only by a host sent to it. *)
Lemma foldl_step_categorized rs st k :
  categorized (foldl step st rs) !! k =
  match bucket k rs with
  | [] => categorized st !! k
  | hosts => Some (categorized st !!! k ++ hosts)%list
  end.
Proof.
  revert st. induction rs as [|j rs IH]; intros st; [reflexivity|].
  cbn [foldl]. rewrite IH, bucket_cons. destruct st as [cat sts int].
  cbn [step categorized]. rewrite append_lookup, append_lookup_total.
  case_decide as E.
  - subst k. destruct (bucket _ rs); [reflexivity|].
    by rewrite <- app_assoc.
  - reflexivity.
Qed.

Lemma foldr_incr_lookup_total ks s k :
  foldr incr s ks !!! k = s !!! k + Z.of_nat (length (filter (λ k', k' = k) ks)).
Proof.
  induction ks as [|k' ks IH]; cbn [foldr]; [rewrite filter_nil; simpl; lia|].
  rewrite incr_lookup_total, filter_cons. case_decide as E.
  - subst k'. rewrite IH. simpl length. lia.
  - rewrite IH. done.
Qed.

Lemma NoDup_count (ks : list string) k :
  NoDup ks →
  Z.of_nat (length (filter (λ k', k' = k) ks)) = if decide (k ∈ ks) then 1 else 0.
Proof.
  induction 1 as [|k' ks Hk' _ IH].
  - rewrite filter_nil. rewrite decide_False by apply not_elem_of_nil. done.
  - rewrite filter_cons. destruct (decide (k' = k)) as [->|Hne].
    + rewrite decide_True by apply list_elem_of_here.
      rewrite decide_False in IH by done. simpl length. lia.
    + rewrite IH. destruct (decide (k ∈ ks)) as [Hin|Hin].
      * rewrite decide_True by (by apply list_elem_of_further). done.
      * rewrite decide_False; [done|].
        intros [->|?]%elem_of_cons; done.
Qed.

Lemma counters_of_NoDup n : NoDup (counters_of n).
Proof.
  unfold counters_of.
  repeat match goal with |- context [if ?b then _ else _] => destruct b end;
  by apply (bool_decide_unpack _).
Qed.

Lemma counters_of_count n k :
  Z.of_nat (length (filter (λ k', k' = k) (counters_of n))) =
  if decide (k ∈ counters_of n) then 1 else 0.
Proof. apply NoDup_count, counters_of_NoDup. Qed.

Lemma hits_cons k j rs :
  hits k (j :: rs) =
  (if decide (k ∈ counters_of (status_of j)) then 1 else 0) + hits k rs.
Proof. unfold hits. rewrite filter_cons. case_decide; simpl length; lia. Qed.

(** The counters after the loop. *)
Lemma foldl_step_stats_total rs st k :
  stats (foldl step st rs) !!! k = stats st !!! k + hits k rs.
Proof.
  revert st. induction rs as [|j rs IH]; intros st.
  - unfold hits. rewrite filter_nil. simpl. lia.
  - cbn [foldl]. rewrite IH, hits_cons. destruct st as [cat sts int].
    cbn [step stats]. rewrite foldr_incr_lookup_total, counters_of_count. lia.
Qed.

Lemma foldl_step_stats_is_Some rs st k :
  is_Some (stats st !! k) → is_Some (stats (foldl step st rs) !! k).
Proof.
  revert st. induction rs as [|j rs IH]; intros st H; [done|].
  cbn [foldl]. apply IH. destruct st as [cat sts int]. cbn [step stats] in *.
  induction (counters_of (status_of j)); cbn [foldr]; [done|].
  by apply incr_is_Some.
Qed.

Lemma foldl_step_stats rs st k :
  is_Some (stats st !! k) →
  stats (foldl step st rs) !! k = Some (stats st !!! k + hits k rs).
Proof.
  intros H. rewrite <- foldl_step_stats_total.
  apply lookup_lookup_total. by apply foldl_step_stats_is_Some.
Qed.

Lemma add_if_lookup_total {A} (b : bool) k (x : A) m g :
  add_if b k x m !!! g =
  (m !!! g ++ if b && bool_decide (k = g) then [x] else [])%list.
Proof.
  unfold add_if. destruct b; simpl.
  - rewrite append_lookup_total. case_decide as E.
    + subst. by rewrite bool_decide_true.
    + rewrite bool_decide_false by done. by rewrite app_nil_r.
  - by rewrite app_nil_r.
Qed.

Lemma add_if_is_Some {A} (b : bool) k (x : A) m g :
  is_Some (m !! g) → is_Some (add_if b k x m !! g).
Proof.
  intros H. unfold add_if. destruct b; [|done].
  rewrite append_lookup. case_decide; eauto.
Qed.

Lemma group_cons g j rs :
  group g (j :: rs) =
  if group_match g j then JStr (clean_url (url_of j)) :: group g rs
  else group g rs.
Proof.
  unfold group. rewrite filter_cons.
  destruct (group_match g j); by case_decide.
Qed.

(** The interesting groups after the loop. *)
Lemma foldl_step_interesting_total rs st g :
  interesting (foldl step st rs) !!! g = (interesting st !!! g ++ group g rs)%list.
Proof.
  revert st. induction rs as [|j rs IH]; intros st.
  - unfold group. rewrite filter_nil. simpl. by rewrite app_nil_r.
  - cbn [foldl]. rewrite IH, group_cons. destruct st as [cat sts int].
    cbn [step interesting]. rewrite !add_if_lookup_total, <- !app_assoc.
    f_equal. unfold group_match.
    destruct (decide (g = "admin_panels")) as [->|Ha].
    { simpl. rewrite !andb_false_r. destruct (admin_match j); reflexivity. }
    rewrite (bool_decide_false (g = "admin_panels")) by done.
    rewrite (bool_decide_false ("admin_panels" = g)) by done.
    rewrite andb_false_r. cbn [app].
    destruct (decide (g = "api_endpoints")) as [->|Hb].
    { simpl. rewrite !andb_false_r. destruct (api_match j); reflexivity. }
    rewrite (bool_decide_false (g = "api_endpoints")) by done.
    rewrite (bool_decide_false ("api_endpoints" = g)) by done.
    rewrite andb_false_r. cbn [app].
    destruct (decide (g = "development_servers")) as [->|Hc].
    { simpl. destruct (dev_match j); reflexivity. }
    rewrite (bool_decide_false (g = "development_servers")) by done.
    rewrite (bool_decide_false ("development_servers" = g)) by done.
    rewrite andb_false_r. reflexivity.
Qed.

Lemma foldl_step_interesting rs st g :
  is_Some (interesting st !! g) →
  interesting (foldl step st rs) !! g = Some (interesting st !!! g ++ group g rs)%list.
Proof.
  intros H. rewrite <- foldl_step_interesting_total.
  apply lookup_lookup_total. revert st H.
  induction rs as [|j rs IH]; intros st H; [done|].
  cbn [foldl]. apply IH. destruct st as [cat sts int].
  cbn [step interesting] in *. by do 3 apply add_if_is_Some.
Qed.

(** The sum of the sizes of the buckets grows by one with each host. *)
Lemma total_hosts_append k h m :
  OutputManager.total_hosts (append k h m) = OutputManager.total_hosts m + 1.
Proof.
  unfold OutputManager.total_hosts, append.
  set (f := λ (_ : string) (hosts : list host_data) (total : Z),
              if hosts is [] then total else total + Z.of_nat (length hosts)).
  assert (Hf : ∀ hosts total, f "" hosts total = total + Z.of_nat (length hosts)).
  { intros [|] total; simpl; lia. }
  assert (Hcomm : ∀ j1 j2 z1 z2 y, f j1 z1 (f j2 z2 y) = f j2 z2 (f j1 z1 y)).
  { intros j1 j2 z1 z2 y. change (f j1) with (f ""). change (f j2) with (f "").
    rewrite !Hf. lia. }
  rewrite <- insert_delete_eq.
  rewrite map_fold_insert_L;
    [|intros; apply Hcomm|apply lookup_delete_eq].
  change (f k) with (f ""). rewrite Hf, length_app. simpl length.
  destruct (m !! k) as [old|] eqn:E.
  - rewrite (map_fold_delete_L f 0 k old m); [|intros; apply Hcomm|done].
    change (f k) with (f ""). rewrite Hf.
    rewrite (lookup_total_correct m k old E). lia.
  - rewrite delete_id by done.
    rewrite lookup_total_alt, E. simpl. lia.
Qed.

Lemma foldl_step_total_hosts rs st :
  OutputManager.total_hosts (categorized (foldl step st rs)) =
  OutputManager.total_hosts (categorized st) + Z.of_nat (length rs).
Proof.
  revert st. induction rs as [|j rs IH]; intros st; [simpl; lia|].
  cbn [foldl]. rewrite IH. destruct st as [cat sts int].
  cbn [step categorized]. rewrite total_hosts_append. simpl length. lia.
Qed.

(** A status increments exactly one of [web_services] and [no_response],
    and [no_response] exactly when it chooses that bucket. *)
Lemma web_services_or_no_response n :
  (if decide ("web_services" ∈ counters_of n) then 1 else 0)
  + (if decide ("no_response" ∈ counters_of n) then 1 else 0) = 1.
Proof.
  unfold counters_of.
  repeat match goal with |- context [if ?b then _ else _] =>
    lazymatch b with decide _ => fail | _ => destruct b end end;
  reflexivity.
Qed.

Lemma hits_web_services rs :
  hits "web_services" rs = Z.of_nat (length rs) - hits "no_response" rs.
Proof.
  induction rs as [|j rs IH]; [reflexivity|].
  rewrite !hits_cons, IH.
  pose proof (web_services_or_no_response (status_of j)). simpl length. lia.
Qed.

Lemma no_response_counter n :
  "no_response" ∈ counters_of n ↔ bucket_of n = "no_response".
Proof.
  unfold counters_of, bucket_of.
  repeat match goal with |- context [if ?b then _ else _] => destruct b end;
  (split; [intros H; by (apply (bool_decide_unpack _); reflexivity)
                  || by (exfalso; revert H; apply (bool_decide_unpack _))
          | intros H; by discriminate || by (apply (bool_decide_unpack _)) ]).
Qed.

(** On host records [categorize_results] never raises; it returns the fold
    of [step] and leaves each record with its [clean_url] written. *)
Lemma categorize_results_host_records results :
  forallb is_host_record results = true →
  categorize_results results =
  Ok (with_clean_url <$> results,
      foldl step (initial_state (Z.of_nat (length results))) results).
Proof. apply categorize_loop_host_records. Qed.

Lemma final_categorized results k :
  categorized (foldl step (initial_state (Z.of_nat (length results))) results) !! k =
  match bucket k results with
  | [] => None
  | hosts => Some hosts
  end.
Proof.
  rewrite foldl_step_categorized. cbn [initial_state categorized].
  rewrite lookup_empty, lookup_total_empty. reflexivity.
Qed.

Lemma final_categorized_total results k :
  categorized (foldl step (initial_state (Z.of_nat (length results))) results) !!! k =
  bucket k results.
Proof.
  rewrite lookup_total_alt, final_categorized. by destruct (bucket k results).
Qed.

Lemma final_stats results k v :
  initial_stats (Z.of_nat (length results)) !! k = Some v →
  stats (foldl step (initial_state (Z.of_nat (length results))) results) !! k =
  Some (v + hits k results).
Proof.
  intros H. rewrite foldl_step_stats by (cbn; eauto).
  cbn [initial_state stats]. by rewrite (lookup_total_correct _ _ _ H).
Qed.

Lemma final_interesting results g :
  is_Some (initial_interesting !! g) →
  interesting (foldl step (initial_state (Z.of_nat (length results))) results) !! g =
  Some (group g results).
Proof.
  intros H. rewrite foldl_step_interesting by (cbn; eauto).
  cbn [initial_state interesting]. destruct H as [l Hl].
  rewrite (lookup_total_correct _ _ _ Hl).
  assert (l = []) as ->; [|done].
  unfold initial_interesting in Hl.
  apply elem_of_list_to_map_2 in Hl.
  repeat (apply elem_of_cons in Hl as [Hl|Hl]; [by inversion Hl|]).
  by apply elem_of_nil in Hl.
Qed.

(** The host of a record of the input is in bucket [k] exactly when its
    status chooses [k]. *)
Lemma host_in_bucket rs j k :
  j ∈ rs → host_data_of j ∈ bucket k rs ↔ k = bucket_of (status_of j).
Proof.
  intros Hj. unfold bucket. rewrite list_elem_of_fmap. split.
  - intros (j' & Heq & Hin). apply list_elem_of_filter in Hin as [<- _].
    injection Heq as _ _ Hs _ _. by rewrite Hs.
  - intros ->. exists j. split; [done|]. by apply list_elem_of_filter.
Qed.

Lemma lands_in_final results j :
  j ∈ results →
  lands_in (foldl step (initial_state (Z.of_nat (length results))) results)
           j (bucket_of (status_of j)).
Proof.
  intros Hj. split.
  - rewrite final_categorized_total. by apply host_in_bucket.
  - intros k'. rewrite final_categorized_total. by apply host_in_bucket.
Qed.

(** The counters the loop can increment. *)
Lemma counters_of_elem n k :
  k ∈ counters_of n →
  k ∈ ["fully_operational"; "web_services"; "redirects"; "blocked"; "errors";
       "no_response"].
Proof.
  unfold counters_of.
  repeat match goal with |- context [if ?b then _ else _] => destruct b end;
  intros Hk;
  repeat (apply elem_of_cons in Hk as [->|Hk]; [by apply (bool_decide_unpack _)|]);
  by apply elem_of_nil in Hk.
Qed.

Lemma hits_untouched k rs :
  k ∉ ["fully_operational"; "web_services"; "redirects"; "blocked"; "errors";
       "no_response"] →
  hits k rs = 0.
Proof.
  intros Hk. induction rs as [|j rs IH]; [reflexivity|].
  rewrite hits_cons, IH, decide_False; [done|].
  intros Hin. by apply Hk, (counters_of_elem (status_of j)).
Qed.

(** C1: for every sequence of host records, [categorize_results] puts each
    record in exactly one bucket, the sizes of all the buckets add up to the
    number of records, [web_services] is that number less the [no_response]
    count, and [total_discovered], [dns_resolved] and [online_hosts] are
    that number. *)
Theorem categorize_results_partition (results : list json) :
  forallb is_host_record results = true →
  ∃ results' st,
    categorize_results results = Ok (results', st)
    ∧ (∀ j, j ∈ results → ∃ k, lands_in st j k)
    ∧ (∀ k, categorized st !!! k = bucket k results)
    ∧ OutputManager.total_hosts (categorized st) = Z.of_nat (length results)
    ∧ (∃ none : Z,
         stats st !! "no_response" = Some none
         ∧ none = Z.of_nat (length (categorized st !!! "no_response"))
         ∧ stats st !! "web_services" = Some (Z.of_nat (length results) - none))
    ∧ stats st !! "total_discovered" = Some (Z.of_nat (length results))
    ∧ stats st !! "dns_resolved" = Some (Z.of_nat (length results))
    ∧ stats st !! "online_hosts" = Some (Z.of_nat (length results)).
Proof.
  intros H. eexists _, _. split; [by apply categorize_results_host_records|].
  split; [|split; [|split; [|split; [|split; [|split]]]]].
  - intros j Hj. eexists. by apply lands_in_final.
  - apply final_categorized_total.
  - rewrite foldl_step_total_hosts. reflexivity.
  - exists (hits "no_response" results). split; [|split].
    + by rewrite (final_stats results "no_response" 0) by reflexivity.
    + rewrite final_categorized_total. unfold hits, bucket.
      rewrite length_fmap. do 2 f_equal.
      apply list_filter_iff. intros j. apply no_response_counter.
    + rewrite (final_stats results "web_services" 0) by reflexivity.
      rewrite hits_web_services. f_equal.
  - rewrite (final_stats results "total_discovered" (Z.of_nat (length results))) by reflexivity.
    rewrite hits_untouched; [f_equal; lia|]. by apply (bool_decide_unpack _).
  - rewrite (final_stats results "dns_resolved" (Z.of_nat (length results))) by reflexivity.
    rewrite hits_untouched; [f_equal; lia|]. by apply (bool_decide_unpack _).
  - rewrite (final_stats results "online_hosts" (Z.of_nat (length results))) by reflexivity.
    rewrite hits_untouched; [f_equal; lia|]. by apply (bool_decide_unpack _).
Qed.

Lemma categorize_results_partition_witness :
  forallb is_host_record [admin_record; created_record] = true
  ∧ ∃ results' st,
      categorize_results [admin_record; created_record] = Ok (results', st)
      ∧ (∀ j, j ∈ [admin_record; created_record] → ∃ k, lands_in st j k)
      ∧ (∀ k, categorized st !!! k = bucket k [admin_record; created_record])
      ∧ OutputManager.total_hosts (categorized st) = 2
      ∧ (∃ none : Z,
           stats st !! "no_response" = Some none
           ∧ none = Z.of_nat (length (categorized st !!! "no_response"))
           ∧ stats st !! "web_services" = Some (2 - none))
      ∧ stats st !! "total_discovered" = Some 2
      ∧ stats st !! "dns_resolved" = Some 2
      ∧ stats st !! "online_hosts" = Some 2.
Proof.
  split; [reflexivity|].
  apply (categorize_results_partition [admin_record; created_record]).
  reflexivity.
Defined.

Ltac status_cases :=
  unfold bucket_of, counters_of, unmatched in *; cbn [existsb] in *;
  rewrite ?Z.geb_leb in *;
  repeat match goal with
  | H : context [Z.eqb ?a ?b] |- _ => destruct (Z.eqb_spec a b)
  | H : context [Z.leb ?a ?b] |- _ => destruct (Z.leb_spec0 a b)
  | H : context [Z.ltb ?a ?b] |- _ => destruct (Z.ltb_spec0 a b)
  | |- context [Z.eqb ?a ?b] => destruct (Z.eqb_spec a b)
  | |- context [Z.leb ?a ?b] => destruct (Z.leb_spec0 a b)
  | |- context [Z.ltb ?a ?b] => destruct (Z.ltb_spec0 a b)
  end; cbn [orb andb negb] in *; try reflexivity; try discriminate; try lia.

Lemma lands_in_iff results j k :
  j ∈ results →
  lands_in (foldl step (initial_state (Z.of_nat (length results))) results) j k
  ↔ k = bucket_of (status_of j).
Proof.
  intros Hj. split.
  - intros [Hin _]. rewrite final_categorized_total in Hin.
    by apply (host_in_bucket results).
  - intros ->. by apply lands_in_final.
Qed.

Lemma bucket_of_keys n :
  bucket_of n ∈ ["fully_operational"; "redirects"; "blocked"; "errors";
                 "no_response"].
Proof.
  unfold bucket_of.
  repeat match goal with |- context [if ?b then _ else _] => destruct b end;
  by apply (bool_decide_unpack _).
Qed.

Lemma bucket_not_chosen results k :
  k ∉ ["fully_operational"; "redirects"; "blocked"; "errors"; "no_response"] →
  categorized (foldl step (initial_state (Z.of_nat (length results))) results) !! k
  = None.
Proof.
  intros Hk. rewrite final_categorized.
  assert (bucket k results = []) as ->; [|done].
  unfold bucket. induction results as [|j rs IH]; [done|].
  rewrite filter_cons, decide_False; [done|].
  intros <-. apply Hk, bucket_of_keys.
Qed.

(** C2: the category of a host record is decided by its status alone, by
    the first rule that matches: 200 is fully operational; 301, 302, 307 and
    308 are redirects; 401 and 403 are blocked; the rest of 400 to 499 and
    all from 500 up are errors; 0 is no response. Two records with the same
    status land in the same bucket whatever their URLs, and a record
    answering 200 on a secure URL is fully operational with [is_https] set,
    the [https_only] key staying absent. *)
Theorem category_by_status (results : list json) :
  forallb is_host_record results = true →
  ∃ results' st,
    categorize_results results = Ok (results', st)
    ∧ (∀ j, j ∈ results →
         let n := status_of j in
         (n = 200 → lands_in st j "fully_operational")
         ∧ (n ∈ [301; 302; 307; 308] → lands_in st j "redirects")
         ∧ (n = 401 ∨ n = 403 → lands_in st j "blocked")
         ∧ (400 ≤ n < 500 → n ≠ 401 → n ≠ 403 → lands_in st j "errors")
         ∧ (500 ≤ n → lands_in st j "errors")
         ∧ (n = 0 → lands_in st j "no_response")
         ∧ (n = 200 → startswith (url_of j) "https://" = true →
            lands_in st j "fully_operational"
            ∧ hd_is_https (host_data_of j) = true
            ∧ categorized st !! "https_only" = None))
    ∧ (∀ j1 j2 k, j1 ∈ results → j2 ∈ results →
         status_of j1 = status_of j2 → lands_in st j1 k ↔ lands_in st j2 k).
Proof.
  intros H. eexists _, _. split; [by apply categorize_results_host_records|].
  split.
  - intros j Hj n.
    assert (L : ∀ k, k = bucket_of n →
      lands_in (foldl step (initial_state (Z.of_nat (length results))) results) j k).
    { intros k ->. by apply lands_in_final. }
    split_and!.
    + intros. apply L. status_cases.
    + rewrite !elem_of_cons, elem_of_nil.
      intros [?|[?|[?|[?|[]]]]]; apply L; status_cases.
    + intros [?|?]; apply L; status_cases.
    + intros. apply L. status_cases.
    + intros. apply L. status_cases.
    + intros. apply L. status_cases.
    + intros Hn Hs. split_and!.
      * apply L. status_cases.
      * exact Hs.
      * apply bucket_not_chosen. by apply (bool_decide_unpack _).
  - intros j1 j2 k H1 H2 Hs. rewrite !lands_in_iff by done. by rewrite Hs.
Qed.

Lemma category_by_status_witness :
  forallb is_host_record [admin_record; created_record] = true
  ∧ ∃ results' st,
      categorize_results [admin_record; created_record] = Ok (results', st)
      ∧ (∀ j, j ∈ [admin_record; created_record] →
           let n := status_of j in
           (n = 200 → lands_in st j "fully_operational")
           ∧ (n ∈ [301; 302; 307; 308] → lands_in st j "redirects")
           ∧ (n = 401 ∨ n = 403 → lands_in st j "blocked")
           ∧ (400 ≤ n < 500 → n ≠ 401 → n ≠ 403 → lands_in st j "errors")
           ∧ (500 ≤ n → lands_in st j "errors")
           ∧ (n = 0 → lands_in st j "no_response")
           ∧ (n = 200 → startswith (url_of j) "https://" = true →
              lands_in st j "fully_operational"
              ∧ hd_is_https (host_data_of j) = true
              ∧ categorized st !! "https_only" = None))
      ∧ (∀ j1 j2 k, j1 ∈ [admin_record; created_record] →
           j2 ∈ [admin_record; created_record] →
           status_of j1 = status_of j2 → lands_in st j1 k ↔ lands_in st j2 k).
Proof.
  split; [reflexivity|].
  apply (category_by_status [admin_record; created_record]). reflexivity.
Defined.

(** C3: for a host record whose status no rule names, [categorize_results]
    puts the record in the [fully_operational] bucket and increments
    [web_services], but the [fully_operational] counter stays at zero: the
    fallback branch has no increment of it. *)
Theorem fallback_leaves_counter (j : json) :
  is_host_record j = true →
  unmatched (status_of j) = true →
  ∃ results' st,
    categorize_results [j] = Ok (results', st)
    ∧ categorized st !! "fully_operational" = Some [host_data_of j]
    ∧ stats st !! "web_services" = Some 1
    ∧ stats st !! "fully_operational" = Some 0.
Proof.
  intros H Hu. eexists _, _.
  split; [apply categorize_results_host_records; simpl; by rewrite H|].
  assert (Hb : bucket_of (status_of j) = "fully_operational") by status_cases.
  assert (Hc : counters_of (status_of j) = ["web_services"]) by status_cases.
  split_and!.
  - rewrite final_categorized, bucket_cons, decide_True by done. reflexivity.
  - rewrite (final_stats [j] "web_services" 0) by reflexivity.
    rewrite hits_cons, Hc. reflexivity.
  - rewrite (final_stats [j] "fully_operational" 0) by reflexivity.
    rewrite hits_cons, Hc. reflexivity.
Qed.

Lemma fallback_leaves_counter_witness :
  is_host_record created_record = true
  ∧ unmatched (status_of created_record) = true
  ∧ ∃ results' st,
      categorize_results [created_record] = Ok (results', st)
      ∧ categorized st !! "fully_operational" = Some [host_data_of created_record]
      ∧ stats st !! "web_services" = Some 1
      ∧ stats st !! "fully_operational" = Some 0.
Proof.
  split; [reflexivity|]. split; [reflexivity|].
  apply (fallback_leaves_counter created_record); reflexivity.
Defined.

(** The claim C5 fails on the record of [http://a.example.com]: the record
    had no [clean_url] key, and the record the call leaves has one. *)
Lemma categorize_results_writes_record :
  ∃ results' st d',
    categorize_results [created_record] = Ok (results', st)
    ∧ fields created_record !! "clean_url" = None
    ∧ results' = [JObj d']
    ∧ d' !! "clean_url" = Some (JStr "a.example.com").
Proof.
  eexists _, _, _. split; [by apply categorize_results_host_records|].
  split; [reflexivity|]. split; reflexivity.
Qed.

(** C5, amended: [categorize_results] writes one key into each host record
    it receives, [clean_url], set to the clean URL of the record's [url];
    every other key of every record is as it was, and no record is added,
    dropped or moved. *)
Theorem categorize_results_writes_only_clean_url (results : list json) :
  forallb is_host_record results = true →
  ∃ results' st,
    categorize_results results = Ok (results', st)
    ∧ length results' = length results
    ∧ ∀ (i : nat) d, results !! i = Some (JObj d) →
        ∃ d', results' !! i = Some (JObj d')
          ∧ d' !! "clean_url" = Some (JStr (clean_url (url_of (JObj d))))
          ∧ ∀ key, key ≠ "clean_url" → d' !! key = d !! key.
Proof.
  intros H. eexists _, _. split; [by apply categorize_results_host_records|].
  split; [apply length_fmap|].
  intros i d Hi. eexists. split_and!.
  - rewrite list_lookup_fmap, Hi. reflexivity.
  - simpl. apply lookup_insert_eq.
  - intros key Hkey. simpl. by apply lookup_insert_ne.
Qed.

Lemma categorize_results_writes_only_clean_url_witness :
  forallb is_host_record [admin_record; created_record] = true
  ∧ ∃ results' st,
      categorize_results [admin_record; created_record] = Ok (results', st)
      ∧ length results' = length [admin_record; created_record]
      ∧ ∀ (i : nat) d, [admin_record; created_record] !! i = Some (JObj d) →
          ∃ d', results' !! i = Some (JObj d')
            ∧ d' !! "clean_url" = Some (JStr (clean_url (url_of (JObj d))))
            ∧ ∀ key, key ≠ "clean_url" → d' !! key = d !! key.
Proof.
  split; [reflexivity|].
  apply (categorize_results_writes_only_clean_url [admin_record; created_record]).
  reflexivity.
Defined.

Lemma group_admin rs :
  group "admin_panels" rs = contribution <$> filter (λ j, admin_match j = true) rs.
Proof. reflexivity. Qed.

Lemma group_api rs :
  group "api_endpoints" rs = contribution <$> filter (λ j, api_match j = true) rs.
Proof. reflexivity. Qed.

Lemma group_dev rs :
  group "development_servers" rs = contribution <$> filter (λ j, dev_match j = true) rs.
Proof. reflexivity. Qed.

Lemma group_shared rs : group "shared_hosting" rs = [].
Proof.
  unfold group. induction rs as [|j rs IH]; [done|].
  rewrite filter_cons, decide_False; [done|]. discriminate.
Qed.

(** C8: after one pass over host records each interesting group holds, in
    input order, one clean URL for each record that passes the test of the
    group, however many keywords of the group the record matches; the tests
    read the URL and the title only, so a record can be in several groups
    whatever its category; [shared_hosting] stays empty. *)
Theorem interesting_finds_groups (results : list json) :
  forallb is_host_record results = true →
  ∃ results' st,
    categorize_results results = Ok (results', st)
    ∧ interesting st !! "admin_panels" =
        Some (contribution <$> filter (λ j, admin_match j = true) results)
    ∧ interesting st !! "api_endpoints" =
        Some (contribution <$> filter (λ j, api_match j = true) results)
    ∧ interesting st !! "development_servers" =
        Some (contribution <$> filter (λ j, dev_match j = true) results)
    ∧ interesting st !! "shared_hosting" = Some [].
Proof.
  intros H. eexists _, _. split; [by apply categorize_results_host_records|].
  split_and!.
  - rewrite final_interesting by (by eexists). by rewrite group_admin.
  - rewrite final_interesting by (by eexists). by rewrite group_api.
  - rewrite final_interesting by (by eexists). by rewrite group_dev.
  - rewrite final_interesting by (by eexists). by rewrite group_shared.
Qed.

Lemma interesting_finds_groups_witness :
  forallb is_host_record [admin_record; created_record] = true
  ∧ ∃ results' st,
      categorize_results [admin_record; created_record] = Ok (results', st)
      ∧ interesting st !! "admin_panels" =
          Some (contribution <$>
                  filter (λ j, admin_match j = true) [admin_record; created_record])
      ∧ interesting st !! "api_endpoints" =
          Some (contribution <$>
                  filter (λ j, api_match j = true) [admin_record; created_record])
      ∧ interesting st !! "development_servers" =
          Some (contribution <$>
                  filter (λ j, dev_match j = true) [admin_record; created_record])
      ∧ interesting st !! "shared_hosting" = Some [].
Proof.
  split; [reflexivity|].
  apply (interesting_finds_groups [admin_record; created_record]). reflexivity.
Defined.

(** The administration page of the specification matches two keywords of
    the admin group and is listed there once, by its clean URL. *)
Example admin_record_listed_once :
  ∃ results' st,
    categorize_results [admin_record] = Ok (results', st)
    ∧ interesting st !! "admin_panels" = Some [JStr "admin.example.com/login"]
    ∧ categorized st !! "fully_operational" = Some [host_data_of admin_record].
Proof.
  eexists _, _. split; [by apply categorize_results_host_records|].
  split; reflexivity.
Qed.

(** C10: the mapping [categorize_results] returns has a key exactly for the
    categories some record landed in, never a key with an empty list, and
    never the keys [https_only] and [http_only]; the report assembled from
    it has the same keys. *)
Theorem categorized_keys (results : list json) :
  forallb is_host_record results = true →
  ∃ results' st,
    categorize_results results = Ok (results', st)
    ∧ (∀ k, is_Some (categorized st !! k) ↔ ∃ j, j ∈ results ∧ lands_in st j k)
    ∧ (∀ k, categorized st !! k ≠ Some [])
    ∧ categorized st !! "https_only" = None
    ∧ categorized st !! "http_only" = None
    ∧ ∀ domain now,
        let report :=
          Report.enhanced_of results' (categorized st) (stats st)
                             (interesting st) domain now in
        Report.categorized_results report !! "https_only" = None
        ∧ Report.categorized_results report !! "http_only" = None.
Proof.
  intros H. eexists _, _. split; [by apply categorize_results_host_records|].
  assert (Hh : ∀ k, k = "https_only" ∨ k = "http_only" →
    categorized (foldl step (initial_state (Z.of_nat (length results))) results)
    !! k = None).
  { intros k Hk. apply bucket_not_chosen.
    destruct Hk as [-> | ->]; by apply (bool_decide_unpack _). }
  split_and!.
  - intros k. rewrite final_categorized. split.
    + intros Hs. destruct (bucket k results) as [|h hs] eqn:E.
      { by destruct Hs. }
      assert (Hin : h ∈ bucket k results) by (rewrite E; apply list_elem_of_here).
      unfold bucket in Hin. apply list_elem_of_fmap in Hin as (j & -> & Hj).
      apply list_elem_of_filter in Hj as [Hk Hj].
      exists j. split; [done|]. apply lands_in_iff; done.
    + intros (j & Hj & Hl). apply lands_in_iff in Hl; [|done]. subst k.
      assert (Hin : host_data_of j ∈ bucket (bucket_of (status_of j)) results)
        by (by apply host_in_bucket).
      destruct (bucket _ results); [by apply elem_of_nil in Hin|by eexists].
  - intros k. rewrite final_categorized. by destruct (bucket k results).
  - apply Hh. by left.
  - apply Hh. by right.
  - intros domain now. simpl. split; apply Hh; [by left|by right].
Qed.

Lemma categorized_keys_witness :
  forallb is_host_record [admin_record; created_record] = true
  ∧ ∃ results' st,
      categorize_results [admin_record; created_record] = Ok (results', st)
      ∧ (∀ k, is_Some (categorized st !! k)
              ↔ ∃ j, j ∈ [admin_record; created_record] ∧ lands_in st j k)
      ∧ (∀ k, categorized st !! k ≠ Some [])
      ∧ categorized st !! "https_only" = None
      ∧ categorized st !! "http_only" = None
      ∧ ∀ domain now,
          let report :=
            Report.enhanced_of results' (categorized st) (stats st)
                               (interesting st) domain now in
          Report.categorized_results report !! "https_only" = None
          ∧ Report.categorized_results report !! "http_only" = None.
Proof.
  split; [reflexivity|].
  apply (categorized_keys [admin_record; created_record]). reflexivity.
Defined.

End CategorizerFacts.

(** ** The detailed listing *)

Module OutputFacts.
Import ReconCategorizer OutputManager.

Lemma str_take_length n s : (String.length (str_take n s) ≤ n)%nat.
Proof.
  revert s. induction n as [|n IH]; intros [|c s]; simpl; try lia.
  specialize (IH s). lia.
Qed.

Lemma str_take_short n s : (String.length s ≤ n)%nat → str_take n s = s.
Proof.
  revert s. induction n as [|n IH]; intros [|c s]; simpl; try done; try lia.
  intros H. rewrite IH; [done|lia].
Qed.

Lemma title_display_after_cut s : title_display (str_take 40 s) = str_take 40 s.
Proof.
  unfold title_display, len. pose proof (str_take_length 40 s).
  destruct (Z.gtb_spec (Z.of_nat (String.length (str_take 40 s))) 40); [lia|done].
Qed.

Lemma _display_host_renderable host index color :
  renderable host = true →
  _display_host host index color = Ok [host_line host index color].
Proof.
  unfold renderable, host_line, _display_host. intros H.
  apply andb_prop in H as [Ht Hs].
  destruct (hd_title host); try discriminate.
  destruct (hd_status_code host); try discriminate; reflexivity.
Qed.

Lemma display_hosts_renderable hosts i color :
  forallb renderable hosts = true →
  display_hosts hosts i color = Ok (host_lines hosts i color).
Proof.
  revert i. induction hosts as [|host hosts IH]; intros i H; [reflexivity|].
  simpl in H. apply andb_prop in H as [Hh Hhs].
  cbn [display_hosts]. rewrite (_display_host_renderable _ _ _ Hh).
  cbn [mbind res_bind Py.bind]. rewrite (IH _ Hhs).
  cbn [mbind res_bind Py.bind]. unfold host_lines. cbn [imap app].
  rewrite Z.add_0_r. do 2 f_equal. apply imap_ext. intros k h _. simpl.
  f_equal. lia.
Qed.

Lemma forallb_take {A} (f : A → bool) n l :
  forallb f l = true → forallb f (take n l) = true.
Proof.
  revert n. induction l as [|x l IH]; intros [|n] H; try done.
  simpl in *. apply andb_prop in H as [-> H]. by apply IH.
Qed.

(** C6: a category with more than [max_hosts] hosts is listed by its first
    [max_hosts] hosts in order, after a warning, and followed by the count
    of the hidden hosts and a preview of the clean URLs of the first three
    of them, with the count of the further ones exactly when more than
    three are hidden; a category with at most [max_hosts] hosts, as any
    category of 500 hosts under [--max-hosts all], is listed whole under
    its header and nothing else. *)
Theorem detailed_listing (o : self)
    (categorized_hosts : gmap string (list host_data)) (category : string)
    (hosts : list host_data) :
  1 ≤ max_hosts o →
  categorized_hosts !! category = Some hosts →
  0 < count hosts →
  forallb renderable hosts = true →
  let n := max_hosts o in
  let colour := lower (color (_get_category_config category)) in
  let hidden := drop (Z.to_nat n) hosts in
  (count hosts > n →
   display_category o categorized_hosts category =
   Ok (section_header category hosts ("Showing top " +:+ str_of_int n)
       ++ print_warning ("Large category! Showing " +:+ str_of_int n +:+ " of "
                         +:+ str_of_int (count hosts) +:+ " hosts.")
       ++ host_lines (take (Z.to_nat n) hosts) 1 colour
       ++ [not_shown_line (count hosts - n);
           preview_line (hd_clean_url <$> take 3 hidden)
             (if count hosts - n >? 3 then Some (count hosts - n - 3) else None)])%list)
  ∧ (count hosts ≤ n →
     display_category o categorized_hosts category =
     Ok (section_header category hosts "Showing ALL" ++ host_lines hosts 1 colour)%list)
  ∧ (∀ int, Orchestrator.max_hosts_of int "all" = Ok n → length hosts = 500%nat →
     display_category o categorized_hosts category =
     Ok (section_header category hosts "Showing ALL" ++ host_lines hosts 1 colour)%list).
Proof.
  intros Hmax Hlook Hpos Hrender n colour hidden.
  assert (Hsmall : count hosts ≤ n →
    display_category o categorized_hosts category =
    Ok (section_header category hosts "Showing ALL" ++ host_lines hosts 1 colour)%list).
  { intros Hle. unfold display_category. rewrite Hlook.
    destruct hosts as [|h hs]; [unfold count in Hpos; simpl in Hpos; lia|].
    cbv beta iota. set (hosts := h :: hs) in *. fold n.
    destruct (Z.gtb_spec (count hosts) n); [lia|].
    unfold _display_small_category.
    rewrite (display_hosts_renderable _ _ _ Hrender). reflexivity. }
  split_and!; [|exact Hsmall|].
  - intros Hgt. unfold display_category. rewrite Hlook.
    destruct hosts as [|h hs]; [unfold count in Hpos; simpl in Hpos; lia|].
    cbv beta iota. set (hosts := h :: hs) in *. fold n.
    destruct (Z.gtb_spec (count hosts) n); [|lia].
    unfold _display_large_category, slice_to, slice_from. fold n.
    destruct (Z.leb_spec 0 n); [|lia].
    rewrite (display_hosts_renderable _ _ _ (forallb_take _ _ _ Hrender)).
    cbn [mbind res_bind Py.bind]. fold colour. fold hidden.
    destruct (Z.gtb_spec (count hosts - n) 0); [|lia].
    change (0 <=? 3) with true. cbn iota.
    change (Z.to_nat 3) with 3%nat.
    assert (Hsample : Z.of_nat (length (hd_clean_url <$> take 3 hidden)) >? 0 = true).
    { rewrite length_fmap, length_take. unfold hidden. rewrite length_drop.
      unfold count in *. apply Z.gtb_lt. lia. }
    rewrite Hsample. unfold preview_line, not_shown_line, section_header.
    destruct (count hosts - n >? 3); reflexivity.
  - intros int Hall Hlen. apply Hsmall.
    unfold Orchestrator.max_hosts_of in Hall. simpl in Hall.
    injection Hall as <-. unfold count. rewrite Hlen. lia.
Qed.

Lemma detailed_listing_witness :
  let o := Self 2 false in
  let categorized_hosts : gmap string (list host_data) :=
    {["fully_operational" := example_hosts]} in
  1 ≤ max_hosts o
  ∧ categorized_hosts !! "fully_operational" = Some example_hosts
  ∧ 0 < count example_hosts
  ∧ forallb renderable example_hosts = true
  ∧ count example_hosts > max_hosts o
  ∧ display_category o categorized_hosts "fully_operational" =
    Ok (section_header "fully_operational" example_hosts "Showing top 2"
        ++ print_warning "Large category! Showing 2 of 7 hosts."
        ++ host_lines (example_host <$> [1; 2]) 1 "green"
        ++ [not_shown_line 5;
            preview_line ["h3.example.com"; "h4.example.com"; "h5.example.com"]
                         (Some 2)])%list.
Proof.
  intros o categorized_hosts.
  assert (H1 : 1 ≤ max_hosts o) by (simpl; lia).
  assert (H2 : categorized_hosts !! "fully_operational" = Some example_hosts)
    by reflexivity.
  assert (H3 : 0 < count example_hosts) by reflexivity.
  assert (H4 : forallb renderable example_hosts = true) by reflexivity.
  assert (H5 : count example_hosts > max_hosts o) by reflexivity.
  split_and!; try assumption.
  exact (proj1 (detailed_listing o categorized_hosts "fully_operational"
                  example_hosts H1 H2 H3 H4) H5).
Defined.

(** C7: [_display_host] cuts a title longer than 40 characters to its first
    40 characters and prints them with no marker after them: the title has
    been cut before its length is tested, so the test for the marker never
    passes. *)
Theorem title_cut_without_marker (host : host_data) (index : Z)
    (color s : string) :
  hd_title host = JStr s →
  40 < len s →
  renderable host = true →
  title_40 (hd_title host) = Ok (str_take 40 s)
  ∧ str_take 40 s ≠ s
  ∧ title_display (str_take 40 s) = str_take 40 s
  ∧ ∃ status,
      format_status (hd_status_code host) = Ok status
      ∧ _display_host host index color =
        Ok ["  " +:+ Colors.DIM +:+ rjust 3 (str_of_int index) +:+ "."
            +:+ Colors.RESET +:+ " " +:+ Colors.getattr (upper color) Colors.WHITE
            +:+ status +:+ Colors.RESET +:+ " " +:+ Colors.CYAN
            +:+ ljust 43 (url_display (hd_clean_url host)) +:+ Colors.RESET
            +:+ " " +:+ Colors.WHITE +:+ ljust 43 (str_take 40 s)
            +:+ Colors.RESET].
Proof.
  intros Ht Hlen Hr. split_and!.
  - by rewrite Ht.
  - intros Heq. pose proof (str_take_length 40 s) as Hl. rewrite Heq in Hl.
    unfold len in Hlen. lia.
  - apply title_display_after_cut.
  - unfold renderable in Hr. rewrite Ht in Hr. simpl in Hr.
    unfold _display_host. rewrite Ht. cbn [title_40 mbind res_bind Py.bind].
    rewrite title_display_after_cut.
    destruct (hd_status_code host); try discriminate; eexists; split; reflexivity.
Qed.

Lemma title_cut_without_marker_witness :
  let title := "An example page title that is far too long to" in
  hd_title (example_host 1) = JStr title
  ∧ 40 < len title
  ∧ renderable (example_host 1) = true
  ∧ title_display (str_take 40 title) = "An example page title that is far too lo"
  ∧ ∃ status,
      format_status (hd_status_code (example_host 1)) = Ok status
      ∧ _display_host (example_host 1) 1 "green" =
        Ok ["  " +:+ Colors.DIM +:+ rjust 3 (str_of_int 1) +:+ "."
            +:+ Colors.RESET +:+ " " +:+ Colors.getattr (upper "green") Colors.WHITE
            +:+ status +:+ Colors.RESET +:+ " " +:+ Colors.CYAN
            +:+ ljust 43 (url_display (hd_clean_url (example_host 1)))
            +:+ Colors.RESET
            +:+ " " +:+ Colors.WHITE
            +:+ ljust 43 "An example page title that is far too lo"
            +:+ Colors.RESET].
Proof.
  intros title.
  assert (H1 : hd_title (example_host 1) = JStr title) by reflexivity.
  assert (H2 : 40 < len title) by reflexivity.
  assert (H3 : renderable (example_host 1) = true) by reflexivity.
  split_and!; try assumption.
  - reflexivity.
  - exact (proj2 (proj2 (proj2
      (title_cut_without_marker (example_host 1) 1 "green" title H1 H2 H3)))).
Defined.

End OutputFacts.

(** ** The parser *)

Module ParserFacts.
Import Parser.

(** C4: a line that decodes to a JSON number is not skipped: the test for
    the [url] key raises [TypeError] on it, which the parser does not catch,
    so the parse of the whole file raises whatever the other lines are. *)
Theorem parse_lines_raises_on_number (json_loads : string → option json)
    (line : string) (ls : list string) (results : list json) (n : Z) :
  String.eqb (strip line) "" = false →
  json_loads (strip line) = Some (JInt n) →
  parse_lines json_loads (line :: ls) results = Raise TypeError.
Proof.
  intros Hne Hload. cbn [parse_lines]. rewrite Hne, Hload. reflexivity.
Qed.

Lemma parse_lines_raises_on_number_witness :
  let json_loads := λ _ : string, Some (JInt 5) in
  String.eqb (strip "5") "" = false
  ∧ json_loads (strip "5") = Some (JInt 5)
  ∧ parse_lines json_loads ["5"] [] = Raise TypeError.
Proof.
  intros json_loads. split; [reflexivity|]. split; [reflexivity|].
  apply (parse_lines_raises_on_number json_loads "5" [] [] 5); reflexivity.
Defined.

End ParserFacts.

(** ** The orchestration *)

Module OrchestratorFacts.
Import IO Orchestrator ReconCategorizer.

Ltac io_simpl :=
  unfold mbind, io_bind, mret, io_ret, sys_exit, raise, lift;
  cbn beta iota; cbn [negb bool_decide andb].

Section WithCollaborators.

Context (subfinder : string → string → io completed).
Context (httpx : bool → string → io completed).
Context (json_loads : string → option json).
Context (timestamp : Z) (now : string) (temp_dir : string).
Context (display_quick_stats : gmap string Z → io unit).
Context (display_category_overview : gmap string (list host_data) → io unit).
Context (display_interesting_finds : gmap string (list json) → io unit).
Context (write_reports : Report.enhanced → string → io unit).

Notation main :=
  (main subfinder httpx json_loads timestamp now temp_dir display_quick_stats
        display_category_overview display_interesting_finds write_reports).
Notation subs := (subs_file timestamp temp_dir).

(** C9: when the discovery has written its file and the probing fails,
    [main] exits with code 1 and leaves the files as the probing left them:
    the file of the discovery is still there, the cleanup being on the path
    of success only. *)
Theorem failure_leaves_temporary_file (domain output_dir : string)
    (simple : bool) (output : OutputManager.self)
    (files files1 files2 : gmap string string) (found probed : completed)
    (content l : string) (ls : list string) :
  subfinder domain (subs domain) files = (Ok found, files1) →
  returncode found = 0 →
  files1 !! subs domain = Some content →
  nonblank (lines (universal_newlines content)) = l :: ls →
  httpx simple (universal_newlines content) files1 = (Ok probed, files2) →
  (returncode probed =? 0) = false →
  is_Some (files2 !! subs domain) →
  main domain output_dir simple output files = (Raise (SystemExit 1), files2)
  ∧ is_Some (files2 !! subs domain).
Proof.
  intros Hfound Hcode Hfile Hlines Hprobed Hfail Hleft. split; [|done].
  assert (Hsub : run_subfinder subfinder domain (subs domain) files = (Ok true, files1)).
  { unfold run_subfinder, try_except. io_simpl. rewrite Hfound, Hcode.
    change (0 =? 0) with true. io_simpl. unfold os_path_exists, read.
    rewrite Hfile. rewrite bool_decide_true by eauto. io_simpl.
    rewrite Hfile. io_simpl. rewrite Hlines. reflexivity. }
  assert (Hhttpx : ∀ alive,
    run_httpx httpx (subs domain) alive simple files1 = (Ok false, files2)).
  { intros alive. unfold run_httpx, os_path_exists, read. io_simpl.
    rewrite Hfile. rewrite bool_decide_true by eauto. io_simpl.
    rewrite Hfile. io_simpl.
    unfold try_except. io_simpl. rewrite Hprobed, Hfail. reflexivity. }
  unfold Orchestrator.main, try_except. io_simpl. rewrite Hsub. io_simpl.
  rewrite Hhttpx. reflexivity.
Qed.

End WithCollaborators.

Lemma failure_leaves_temporary_file_witness :
  let subs := "/tmp/subs_example.com_7.txt" in
  Orchestrator.main subfinder_one_host httpx_failing (λ _, None) 7 "" "/tmp"
                    nothing nothing nothing (λ _, nothing) "example.com" "."
                    false (OutputManager.Self 25 false) ∅
  = (Raise (SystemExit 1), {[subs := "a.example.com"]})
  ∧ is_Some (({[subs := "a.example.com"]} : gmap string string) !! subs).
Proof.
  intros subs.
  apply (failure_leaves_temporary_file subfinder_one_host httpx_failing
           (λ _, None) 7 "" "/tmp" nothing nothing nothing (λ _, nothing)
           "example.com" "." false (OutputManager.Self 25 false) ∅
           {[subs := "a.example.com"]} {[subs := "a.example.com"]}
           (Completed 0 "" "") (Completed 1 "" "")
           "a.example.com" "a.example.com" []);
    try reflexivity.
  by eexists.
Defined.

End OrchestratorFacts.

(** ** More on the categoriser *)

Module CategorizerMore.
Import ReconCategorizer HostRecord CategorizerFacts.

Ltac closed_iff :=
  split; intros ?H;
  first [ by apply (bool_decide_unpack _)
        | exfalso; revert H; by apply (bool_decide_unpack _) ].

(** For the four categories other than [fully_operational], a status
    increments the counter of a category exactly when it chooses its
    bucket. *)
Lemma counter_iff_bucket n k :
  k ∈ ["redirects"; "blocked"; "errors"; "no_response"] →
  k ∈ counters_of n ↔ bucket_of n = k.
Proof.
  intros Hk.
  repeat (apply elem_of_cons in Hk as [->|Hk]);
    [| | | |by apply elem_of_nil in Hk];
  unfold counters_of, bucket_of;
  repeat match goal with |- context [if ?b then _ else _] => destruct b end;
  closed_iff.
Qed.

Lemma fully_operational_counter n :
  "fully_operational" ∈ counters_of n ↔ n = 200.
Proof.
  unfold counters_of. destruct (Z.eqb_spec n 200) as [->|Hn].
  - split; [done|]. intros _. by apply (bool_decide_unpack _).
  - repeat match goal with |- context [if ?b then _ else _] => destruct b end;
    (split; [intros H; exfalso; revert H; by apply (bool_decide_unpack _)|done]).
Qed.

Lemma hits_length_bucket k rs :
  k ∈ ["redirects"; "blocked"; "errors"; "no_response"] →
  hits k rs = Z.of_nat (length (bucket k rs)).
Proof.
  intros Hk. unfold hits, bucket. rewrite length_fmap. do 2 f_equal.
  apply list_filter_iff. intros j. by apply counter_iff_bucket.
Qed.

(** X1: the counters [redirects], [blocked], [errors] and [no_response] are
    the sizes of their buckets; [fully_operational] counts the records
    answering 200 only, so it is at most the size of its bucket; and
    [https_only] and [http_only] stay at zero. *)
Theorem counters_and_buckets (results : list json) :
  forallb is_host_record results = true →
  ∃ results' st,
    categorize_results results = Ok (results', st)
    ∧ (∀ k, k ∈ ["redirects"; "blocked"; "errors"; "no_response"] →
         stats st !! k = Some (Z.of_nat (length (categorized st !!! k))))
    ∧ stats st !! "fully_operational" =
        Some (Z.of_nat (length (filter (λ j, status_of j = 200) results)))
    ∧ (Z.of_nat (length (filter (λ j, status_of j = 200) results))
       ≤ Z.of_nat (length (categorized st !!! "fully_operational")))
    ∧ stats st !! "https_only" = Some 0
    ∧ stats st !! "http_only" = Some 0.
Proof.
  intros H. eexists _, _. split; [by apply categorize_results_host_records|].
  split_and!.
  - intros k Hk. rewrite final_categorized_total, <- hits_length_bucket by done.
    assert (Hinit : initial_stats (Z.of_nat (length results)) !! k = Some 0).
    { repeat (apply elem_of_cons in Hk as [->|Hk]); try reflexivity.
      by apply elem_of_nil in Hk. }
    by rewrite (final_stats results k 0 Hinit).
  - rewrite (final_stats results "fully_operational" 0) by reflexivity.
    unfold hits. rewrite Z.add_0_l. do 3 f_equal. apply list_filter_iff.
    intros j. apply fully_operational_counter.
  - rewrite final_categorized_total. unfold bucket. rewrite length_fmap.
    apply inj_le. induction results as [|j rs IH]; [done|].
    simpl in H. apply andb_prop in H as [_ H]. specialize (IH H).
    rewrite !filter_cons. destruct (decide (status_of j = 200)) as [E|E].
    + rewrite E. rewrite decide_True by reflexivity. simpl. lia.
    + case_decide; simpl; lia.
  - rewrite (final_stats results "https_only" 0) by reflexivity.
    rewrite hits_untouched; [done|]. by apply (bool_decide_unpack _).
  - rewrite (final_stats results "http_only" 0) by reflexivity.
    rewrite hits_untouched; [done|]. by apply (bool_decide_unpack _).
Qed.

Lemma counters_and_buckets_witness :
  forallb is_host_record [admin_record; created_record] = true
  ∧ ∃ results' st,
      categorize_results [admin_record; created_record] = Ok (results', st)
      ∧ (∀ k, k ∈ ["redirects"; "blocked"; "errors"; "no_response"] →
           stats st !! k = Some (Z.of_nat (length (categorized st !!! k))))
      ∧ stats st !! "fully_operational" =
          Some (Z.of_nat (length (filter (λ j, status_of j = 200)
                                         [admin_record; created_record])))
      ∧ (Z.of_nat (length (filter (λ j, status_of j = 200)
                                  [admin_record; created_record]))
         ≤ Z.of_nat (length (categorized st !!! "fully_operational")))
      ∧ stats st !! "https_only" = Some 0
      ∧ stats st !! "http_only" = Some 0.
Proof.
  split; [reflexivity|].
  apply (counters_and_buckets [admin_record; created_record]). reflexivity.
Defined.

Lemma int_of_eq_int v n k : int_of v = Some n → eq_int v k = (n =? k).
Proof. unfold eq_int. by intros ->. Qed.

Lemma int_of_in_ints v n ks :
  int_of v = Some n → in_ints v ks = existsb (Z.eqb n) ks.
Proof.
  intros H. unfold in_ints. induction ks as [|k ks IH]; [done|].
  simpl. by rewrite (int_of_eq_int v n k H), IH.
Qed.

(** One iteration on a dict with a string for [url] and a number for
    [status_code]: the bucket and the counters are those of the number, and
    the iteration ends as the check for interesting finds does. *)
Lemma categorize_one_numeric d st u n :
  default (JStr "") (d !! "url") = JStr u →
  int_of (default (JInt 0) (d !! "status_code")) = Some n →
  let d' := <["clean_url" := JStr (clean_url u)]> d in
  let host :=
    HostData u (clean_url u) (default (JInt 0) (d !! "status_code"))
             (default (JStr "No Title") (d !! "title")) (startswith u "https://") in
  categorize_one (JObj d) st =
  (found ← _check_interesting_finds (JObj d') (interesting st);
   Ok (JObj d',
       State (append (bucket_of n) host (categorized st))
             (foldr incr (stats st) (counters_of n)) found)).
Proof.
  intros Hu Hn d' host. destruct st as [cat sts int].
  unfold categorize_one. cbn [dict_method mbind res_bind Py.bind].
  rewrite Hu. cbn [str_method mbind res_bind Py.bind].
  fold (clean_url u). fold d'.
  replace (default (JStr "No Title") (d' !! "title"))
    with (default (JStr "No Title") (d !! "title"))
    by (unfold d'; by rewrite lookup_insert_ne).
  fold host.
  rewrite !(int_of_eq_int _ n _ Hn), (int_of_in_ints _ n _ Hn).
  unfold number. rewrite Hn. cbn [mbind res_bind Py.bind interesting].
  unfold bucket_of, counters_of.
  destruct (n =? 200); [reflexivity|].
  destruct (existsb (Z.eqb n) [301; 302; 307; 308]); [reflexivity|].
  destruct ((n =? 403) || (n =? 401)); [reflexivity|].
  destruct ((400 <=? n) && (n <? 500)); [reflexivity|].
  destruct (n >=? 500); [reflexivity|].
  destruct (n =? 0); reflexivity.
Qed.

Lemma check_interesting_finds_bad_title d int u :
  default (JStr "") (d !! "url") = JStr u →
  is_str (default (JStr "") (d !! "title")) = false →
  _check_interesting_finds (JObj d) int = Raise AttributeError.
Proof.
  intros Hu Ht. unfold _check_interesting_finds.
  cbn [dict_method mbind res_bind Py.bind]. rewrite Hu.
  cbn [str_method mbind res_bind Py.bind].
  by destruct (default (JStr "") (d !! "title")).
Qed.

Lemma categorize_one_non_numeric d st u :
  default (JStr "") (d !! "url") = JStr u →
  int_of (default (JInt 0) (d !! "status_code")) = None →
  categorize_one (JObj d) st = Raise TypeError.
Proof.
  intros Hu Hn. destruct st as [cat sts int].
  unfold categorize_one. cbn [dict_method mbind res_bind Py.bind].
  rewrite Hu. cbn [str_method mbind res_bind Py.bind].
  unfold in_ints, existsb, eq_int, number. rewrite Hn. reflexivity.
Qed.

Lemma categorize_one_bad_url d st :
  typed is_str (d !! "url") = false →
  categorize_one (JObj d) st = Raise AttributeError.
Proof.
  intros Hu. unfold categorize_one. cbn [dict_method mbind res_bind Py.bind].
  destruct (d !! "url") as [[]|]; try discriminate; reflexivity.
Qed.

Lemma typed_str_default o dflt :
  typed is_str o = true → ∃ u, default (JStr dflt) o = JStr u.
Proof. destruct o as [[]|]; try discriminate; by eexists. Qed.

Lemma untyped_str_default o dflt :
  typed is_str o = false → is_str (default (JStr dflt) o) = false.
Proof. by destruct o as [[]|]. Qed.

Lemma typed_number_default o :
  typed (λ v, bool_decide (is_Some (int_of v))) o = true →
  ∃ n, int_of (default (JInt 0) o) = Some n.
Proof.
  destruct o as [v|]; [|by eexists]. simpl.
  intros [n Hn]%bool_decide_eq_true. by exists n.
Qed.

Lemma untyped_number_default o :
  typed (λ v, bool_decide (is_Some (int_of v))) o = false →
  int_of (default (JInt 0) o) = None.
Proof.
  destruct o as [v|]; [|done]. simpl. intros H%bool_decide_eq_false.
  destruct (int_of v); [|done]. by destruct H.
Qed.

(** One iteration raises the fault of its record. *)
Lemma categorize_one_fault j st e :
  fault_of j = Some e → categorize_one j st = Raise e.
Proof.
  destruct j as [| | | | |d]; try (by intros [= <-]).
  unfold fault_of.
  destruct (typed is_str (d !! "url")) eqn:Eu; cbn [negb];
    [|intros [= <-]; by apply categorize_one_bad_url].
  destruct (typed_str_default _ "" Eu) as [u Hu].
  destruct (typed _ (d !! "status_code")) eqn:Es; cbn [negb];
    [|intros [= <-]; apply (categorize_one_non_numeric d st u Hu);
      by apply untyped_number_default].
  destruct (typed_number_default _ Es) as [n Hn].
  destruct (typed is_str (d !! "title")) eqn:Et; cbn [negb]; [done|].
  intros [= <-]. rewrite (categorize_one_numeric d st u n Hu Hn).
  rewrite (check_interesting_finds_bad_title _ _ u); [done| |].
  - by rewrite lookup_insert_ne.
  - rewrite lookup_insert_ne by done. by apply untyped_str_default.
Qed.

(** One iteration returns on a record without fault. *)
Lemma categorize_one_faultless j st :
  fault_of j = None → ∃ r, categorize_one j st = Ok r.
Proof.
  destruct j as [| | | | |d]; try discriminate.
  unfold fault_of.
  destruct (typed is_str (d !! "url")) eqn:Eu; cbn [negb]; [|discriminate].
  destruct (typed_str_default _ "" Eu) as [u Hu].
  destruct (typed _ (d !! "status_code")) eqn:Es; cbn [negb]; [|discriminate].
  destruct (typed_number_default _ Es) as [n Hn].
  destruct (typed is_str (d !! "title")) eqn:Et; cbn [negb]; [|discriminate].
  destruct (typed_str_default _ "" Et) as [t Ht].
  intros _. rewrite (categorize_one_numeric d st u n Hu Hn).
  rewrite (check_interesting_finds_str _ _ u t).
  - by eexists.
  - by rewrite lookup_insert_ne.
  - by rewrite lookup_insert_ne.
Qed.


Lemma categorize_loop_fault pre j post st e :
  forallb faultless pre = true →
  fault_of j = Some e →
  categorize_loop (pre ++ j :: post) st = Raise e.
Proof.
  revert st. induction pre as [|j0 pre IH]; intros st Hpre Hj.
  - cbn [app categorize_loop]. by rewrite (categorize_one_fault j st e Hj).
  - simpl in Hpre. apply andb_prop in Hpre as [Hj0 Hpre].
    unfold faultless in Hj0. destruct (fault_of j0) eqn:Ej0; [discriminate|].
    destruct (categorize_one_faultless j0 st Ej0) as [[j0' st'] Hone].
    cbn [app categorize_loop]. rewrite Hone. cbn [mbind res_bind Py.bind].
    by rewrite (IH st' Hpre Hj).
Qed.

(** X2: [categorize_results] raises on the first record with a fault, with
    the exception of that fault: [AttributeError] for a value that is not a
    dict or whose [url] or [title] is not a string, [TypeError] for a
    [status_code] that is not a number, the [url] being tested first, then
    the status, then the title. *)
Theorem categorize_results_raises (pre post : list json) (j : json) (e : exn) :
  forallb faultless pre = true →
  fault_of j = Some e →
  categorize_results (pre ++ j :: post)%list = Raise e.
Proof. intros Hpre Hj. by apply categorize_loop_fault. Qed.

Lemma categorize_results_raises_witness :
  forallb faultless [admin_record] = true
  ∧ fault_of quoted_status_record = Some TypeError
  ∧ categorize_results
      ([admin_record] ++ quoted_status_record :: [created_record])%list
    = Raise TypeError.
Proof.
  split; [reflexivity|]. split; [reflexivity|].
  apply (categorize_results_raises [admin_record] [created_record]
           quoted_status_record TypeError); reflexivity.
Defined.


Example true_status_is_faultless :
  faultless true_status_record = true
  ∧ ∃ results' st,
      categorize_results [true_status_record] = Ok (results', st)
      ∧ is_Some (categorized st !! "fully_operational").
Proof.
  split; [reflexivity|]. eexists _, _. split; [reflexivity|]. by eexists.
Qed.

(** X4: the defaults of the three [get]s: a host record without
    [status_code] lands in [no_response] with status 0, one without [title]
    gets the title [No Title], one without [url] gets the empty URL and the
    empty clean URL. *)
Theorem missing_keys_defaults (results : list json) :
  forallb is_host_record results = true →
  ∃ results' st,
    categorize_results results = Ok (results', st)
    ∧ ∀ j, j ∈ results →
        ∃ k, lands_in st j k
        ∧ (fields j !! "status_code" = None →
           k = "no_response" ∧ hd_status_code (host_data_of j) = JInt 0)
        ∧ (fields j !! "title" = None →
           hd_title (host_data_of j) = JStr "No Title")
        ∧ (fields j !! "url" = None →
           hd_url (host_data_of j) = "" ∧ hd_clean_url (host_data_of j) = "").
Proof.
  intros H. eexists _, _. split; [by apply categorize_results_host_records|].
  intros j Hj. exists (bucket_of (status_of j)).
  split; [by apply lands_in_final|]. split_and!.
  - intros Hs. unfold host_data_of, status_of. rewrite Hs. done.
  - intros Ht. unfold host_data_of, title_of. cbn [hd_title]. by rewrite Ht.
  - intros Hu. unfold host_data_of, url_of. cbn [hd_url hd_clean_url].
    by rewrite Hu.
Qed.

Lemma missing_keys_defaults_witness :
  forallb is_host_record [bare_record] = true
  ∧ ∃ results' st,
      categorize_results [bare_record] = Ok (results', st)
      ∧ ∀ j, j ∈ [bare_record] →
          ∃ k, lands_in st j k
          ∧ (fields j !! "status_code" = None →
             k = "no_response" ∧ hd_status_code (host_data_of j) = JInt 0)
          ∧ (fields j !! "title" = None →
             hd_title (host_data_of j) = JStr "No Title")
          ∧ (fields j !! "url" = None →
             hd_url (host_data_of j) = "" ∧ hd_clean_url (host_data_of j) = "").
Proof.
  split; [reflexivity|].
  apply (missing_keys_defaults [bare_record]). reflexivity.
Defined.

Lemma replace_from_absent old new s :
  contains old s = false → replace_from old new 0 s = s.
Proof.
  induction s as [|c s IH]; [done|]. intros H.
  cbn [contains] in H. apply orb_false_elim in H as [Hp Hc].
  cbn [replace_from]. rewrite Hp. by rewrite (IH Hc).
Qed.

Lemma replace_from_skip old new t s :
  replace_from old new (String.length t) (t +:+ s) = replace_from old new 0 s.
Proof. induction t as [|c t IH]; [done|]. simpl. apply IH. Qed.

Lemma prefix_app old s : String.prefix old (old +:+ s) = true.
Proof.
  induction old as [|c old IH]; [by destruct s|]. simpl.
  destruct (ascii_dec c c); [apply IH|done].
Qed.

Lemma replace_at_head c old new s :
  replace (String c old +:+ s) (String c old) new = new +:+ replace s (String c old) new.
Proof.
  unfold replace. change (String c old +:+ s) with (String c (old +:+ s)).
  cbn [replace_from].
  change (String c (old +:+ s)) with (String c old +:+ s).
  rewrite prefix_app. cbn [String.length Nat.pred].
  by rewrite replace_from_skip.
Qed.

(** X5: the clean URL of a text without the markers [https://] and
    [http://] is the text itself, and one such marker in front of it is
    removed. *)
Theorem clean_url_strips_scheme (s : string) :
  contains "https://" s = false →
  contains "http://" s = false →
  clean_url s = s
  ∧ clean_url ("https://" +:+ s) = s
  ∧ clean_url ("http://" +:+ s) = s.
Proof.
  intros Hs Hp.
  assert (Hclean : clean_url s = s).
  { unfold clean_url, replace.
    rewrite (replace_from_absent _ _ _ Hs). apply (replace_from_absent _ _ _ Hp). }
  split_and!; [done| |].
  - unfold clean_url. rewrite replace_at_head. exact Hclean.
  - unfold clean_url.
    assert (Hno : contains "https://" ("http://" +:+ s) = false).
    { simpl. simpl in Hs. destruct s; simpl; exact Hs. }
    unfold replace at 2. rewrite (replace_from_absent _ _ _ Hno).
    rewrite replace_at_head. apply (replace_from_absent _ _ _ Hp).
Qed.

Lemma clean_url_strips_scheme_witness :
  contains "https://" "a.example.com/x" = false
  ∧ contains "http://" "a.example.com/x" = false
  ∧ clean_url "a.example.com/x" = "a.example.com/x"
  ∧ clean_url ("https://" +:+ "a.example.com/x") = "a.example.com/x"
  ∧ clean_url ("http://" +:+ "a.example.com/x") = "a.example.com/x".
Proof.
  split; [reflexivity|]. split; [reflexivity|].
  apply (clean_url_strips_scheme "a.example.com/x"); reflexivity.
Defined.

(** The markers are removed wherever they are, not in front only. *)
Example clean_url_inner_marker :
  clean_url "https://a.example.com/?next=http://b.example.com"
  = "a.example.com/?next=b.example.com".
Proof. reflexivity. Qed.




End CategorizerMore.

(** ** More on the parser *)

Module ParserMore.
Import IO Parser.
Local Open Scope list_scope.

Section WithDecoder.

Context (json_loads : string → option json).

(** The loop goes on from the results of the lines before. *)
Lemma parse_lines_app ls1 ls2 results :
  parse_lines json_loads (ls1 ++ ls2) results =
  parse_lines json_loads ls1 results ≫= parse_lines json_loads ls2.
Proof.
  revert results. induction ls1 as [|line ls1 IH]; intros results; [done|].
  cbn [app parse_lines].
  destruct (String.eqb (strip line) ""); [apply IH|].
  destruct (json_loads (strip line)) as [data|]; [|apply IH].
  destruct (has_url data) as [[]|e]; cbn [mbind res_bind Py.bind]; try apply IH.
  done.
Qed.

Lemma parse_lines_skipped ls results :
  forallb (dict_or_skipped json_loads) ls = true →
  parse_lines json_loads ls results =
  Ok (results ++ omap (record_of json_loads) ls).
Proof.
  revert results. induction ls as [|line ls IH]; intros results H.
  - simpl. by rewrite app_nil_r.
  - simpl in H. apply andb_prop in H as [Hl Hls].
    cbn [parse_lines omap list_omap]. unfold dict_or_skipped, record_of in *.
    destruct (String.eqb (strip line) ""); [by apply IH|].
    destruct (json_loads (strip line)) as [[| | | | |d]|]; try discriminate;
      [|by apply IH].
    cbn [has_url mbind res_bind Py.bind].
    destruct (bool_decide (is_Some (d !! "url"))); [|by apply IH].
    rewrite (IH _ Hls). by rewrite <- app_assoc.
Qed.

(** X7: on lines that are each blank, undecodable or a dict, the parser
    returns, after the results it started from, the dicts that have a [url]
    key, one per such line and in the order of the lines. *)
Theorem parse_lines_keeps_records (ls : list string) (results : list json) :
  forallb (dict_or_skipped json_loads) ls = true →
  parse_lines json_loads ls results =
  Ok (results ++ omap (record_of json_loads) ls).
Proof. apply parse_lines_skipped. Qed.

(** X8: a line that decodes to [null], a boolean or a number makes the
    parse raise [TypeError] wherever it is, the lines before it being
    blank, undecodable or dicts; the records read before it are lost. *)
Theorem parse_lines_raises_anywhere (pre post : list string) (line : string)
    (results : list json) :
  forallb (dict_or_skipped json_loads) pre = true →
  scalar_line json_loads line = true →
  parse_lines json_loads (pre ++ line :: post) results = Raise TypeError.
Proof.
  intros Hpre Hline. rewrite parse_lines_app, (parse_lines_skipped _ _ Hpre).
  cbn [mbind res_bind Py.bind parse_lines]. unfold scalar_line in Hline.
  apply andb_prop in Hline as [Hne Hs].
  destruct (String.eqb (strip line) ""); [discriminate|].
  by destruct (json_loads (strip line)) as [[]|].
Qed.

(** X9: a line that decodes to a list with the string [url] among its
    elements is returned as a record, and [categorize_results] raises
    [AttributeError] on the result. *)
Theorem parse_lines_keeps_list (line : string) (l : list json) :
  String.eqb (strip line) "" = false →
  json_loads (strip line) = Some (JArr l) →
  existsb (λ v, if v is JStr s then String.eqb s "url" else false) l = true →
  parse_lines json_loads [line] [] = Ok [JArr l]
  ∧ ReconCategorizer.categorize_results [JArr l] = Raise AttributeError.
Proof.
  intros Hne Hload Hin. split; [|reflexivity].
  cbn [parse_lines]. rewrite Hne, Hload. cbn [has_url]. rewrite Hin. reflexivity.
Qed.

(** X10: [parse_httpx_results] never changes the files, and gives the empty
    list for a file that does not exist. *)
Theorem parse_httpx_results_reads_only (results_file : string)
    (files : gmap string string) :
  (parse_httpx_results json_loads results_file files).2 = files
  ∧ (files !! results_file = None →
     parse_httpx_results json_loads results_file files = (Ok [], files)).
Proof.
  unfold parse_httpx_results, os_path_exists, read, lift, mbind, io_bind, mret, io_ret.
  destruct (files !! results_file) as [content|] eqn:E.
  - rewrite bool_decide_true by eauto. cbn [negb]. cbv beta. rewrite E.
    split; [done|discriminate].
  - rewrite bool_decide_false by (by intros [? ?]). cbn [negb]. done.
Qed.

End WithDecoder.

Lemma parse_lines_keeps_records_witness :
  forallb (dict_or_skipped example_loads)
          [url_line; "  "; "not valid json"; status_line; url_line] = true
  ∧ parse_lines example_loads
      [url_line; "  "; "not valid json"; status_line; url_line] [] =
    Ok ([] ++ omap (record_of example_loads)
                   [url_line; "  "; "not valid json"; status_line; url_line]).
Proof.
  split; [reflexivity|].
  apply (parse_lines_keeps_records example_loads); reflexivity.
Defined.

Lemma parse_lines_raises_anywhere_witness :
  forallb (dict_or_skipped example_loads) [url_line; "not valid json"] = true
  ∧ scalar_line example_loads number_line = true
  ∧ parse_lines example_loads
      ([url_line; "not valid json"] ++ number_line :: [url_line]) [] =
    Raise TypeError.
Proof.
  split; [reflexivity|]. split; [reflexivity|].
  apply (parse_lines_raises_anywhere example_loads); reflexivity.
Defined.

Lemma parse_lines_keeps_list_witness :
  String.eqb (strip list_line) "" = false
  ∧ example_loads (strip list_line) = Some (JArr [JStr "url"])
  ∧ parse_lines example_loads [list_line] [] = Ok [JArr [JStr "url"]]
  ∧ ReconCategorizer.categorize_results [JArr [JStr "url"]] = Raise AttributeError.
Proof.
  split; [reflexivity|]. split; [reflexivity|].
  apply (parse_lines_keeps_list example_loads list_line [JStr "url"]);
    reflexivity.
Defined.

Lemma parse_httpx_results_reads_only_witness :
  (∅ : gmap string string) !! "/tmp/alive.json" = None
  ∧ parse_httpx_results example_loads "/tmp/alive.json" ∅ = (Ok [], ∅).
Proof.
  split; [reflexivity|].
  apply (proj2 (parse_httpx_results_reads_only example_loads "/tmp/alive.json" ∅)).
  reflexivity.
Defined.

End ParserMore.

(** ** More on the display *)

Module OutputMore.
Import ReconCategorizer HostRecord OutputManager OutputFacts CategorizerFacts.
Local Open Scope list_scope.

Lemma length_append a b :
  String.length (a +:+ b) = (String.length a + String.length b)%nat.
Proof. induction a as [|c a IH]; simpl; [done|by rewrite IH]. Qed.

Lemma length_spaces n : String.length (spaces n) = n.
Proof. induction n as [|n IH]; simpl; [done|by rewrite IH]. Qed.

Lemma length_str_take n s :
  String.length (str_take n s) = Nat.min n (String.length s).
Proof.
  revert s. induction n as [|n IH]; intros [|c s]; simpl; try done.
  by rewrite IH.
Qed.

Lemma length_ljust w s :
  String.length (ljust w s) = Nat.max w (String.length s).
Proof. unfold ljust. rewrite length_append, length_spaces. lia. Qed.

(** X11: [_display_host] shows a URL of at most 40 characters as it is, and
    a longer one as its first 37 characters followed by three dots, 40
    characters in all. *)
Theorem url_display_fits (url : string) :
  (len url ≤ 40 → url_display url = url)
  ∧ (40 < len url →
     url_display url = str_take 37 url +:+ "..." ∧ len (url_display url) = 40)
  ∧ len (url_display url) ≤ 40.
Proof.
  unfold url_display, len.
  destruct (Z.gtb_spec (Z.of_nat (String.length url)) 40) as [Hgt|Hle].
  - split_and!; [lia| |].
    + intros _. split; [done|].
      rewrite length_append, length_str_take. simpl String.length. lia.
    + rewrite length_append, length_str_take. simpl String.length. lia.
  - split_and!; [done|lia|lia].
Qed.

(** X12: in the line of a host the column of the URL and the column of the
    title are 43 characters wide, whatever the URL and the title. *)
Theorem columns_are_43_wide (url title : string) :
  String.length (ljust 43 (url_display url)) = 43%nat
  ∧ String.length (ljust 43 (title_display (str_take 40 title))) = 43%nat.
Proof.
  split.
  - rewrite length_ljust. pose proof (url_display_fits url) as (_ & _ & H).
    unfold len in H. lia.
  - rewrite title_display_after_cut, length_ljust, length_str_take. lia.
Qed.

Lemma display_categories_nothing o categorized_hosts categories :
  (∀ category, category ∈ categories →
     categorized_hosts !! category = None ∨ categorized_hosts !! category = Some []) →
  display_categories o categorized_hosts categories = Ok [].
Proof.
  induction categories as [|category categories IH]; intros H; [done|].
  cbn [display_categories]. unfold display_category at 1.
  destruct (H category) as [-> | ->]; [apply list_elem_of_here| |];
    cbn [mbind res_bind Py.bind];
    (rewrite IH; [done|]; intros c Hc; apply H; by apply list_elem_of_further).
Qed.

(** X13: the detailed listing prints nothing for a mapping whose seven
    known categories are absent or empty: a key that is not one of the seven
    is never listed, whatever it holds. *)
Theorem display_categorized_results_nothing (o : self)
    (categorized_hosts : gmap string (list host_data)) :
  (∀ category, category ∈ category_order →
     categorized_hosts !! category = None ∨ categorized_hosts !! category = Some []) →
  display_categorized_results o categorized_hosts = Ok [].
Proof. apply display_categories_nothing. Qed.

Lemma display_categorized_results_nothing_witness :
  let categorized_hosts : gmap string (list host_data) :=
    <["other" := example_hosts]> {["errors" := []]} in
  (∀ category, category ∈ category_order →
     categorized_hosts !! category = None ∨ categorized_hosts !! category = Some [])
  ∧ display_categorized_results (Self 25 false) categorized_hosts = Ok [].
Proof.
  intros categorized_hosts.
  assert (H : ∀ category, category ∈ category_order →
     categorized_hosts !! category = None ∨ categorized_hosts !! category = Some []).
  { intros category Hc. unfold category_order in Hc.
    repeat (apply elem_of_cons in Hc as [->|Hc]; [(by left) || (by right)|]).
    by apply elem_of_nil in Hc. }
  split; [exact H|].
  exact (display_categorized_results_nothing (Self 25 false) categorized_hosts H).
Defined.

Lemma display_category_renderable o categorized_hosts category :
  (∀ hosts, categorized_hosts !! category = Some hosts →
     forallb renderable hosts = true) →
  ∃ section, display_category o categorized_hosts category = Ok section.
Proof.
  intros H. unfold display_category.
  destruct (categorized_hosts !! category) as [[|h hs]|]; [by eexists| |by eexists].
  specialize (H _ eq_refl). set (hosts := h :: hs) in *.
  destruct (count hosts >? max_hosts o).
  - unfold _display_large_category, slice_to.
    destruct (0 <=? max_hosts o);
      rewrite (display_hosts_renderable _ _ _ (forallb_take _ _ _ H));
      by eexists.
  - unfold _display_small_category.
    rewrite (display_hosts_renderable _ _ _ H). by eexists.
Qed.

Lemma bucket_renderable k rs : forallb renderable (bucket k rs) = true.
Proof.
  unfold bucket. induction (filter _ rs) as [|j js IH]; [done|].
  simpl. exact IH.
Qed.

(** X14: on the buckets that [categorize_results] builds from host records
    the detailed listing never raises, whatever [max_hosts] is, and it
    prints the sections of the fully operational hosts, the redirects, the
    errors, the blocked hosts and the hosts without response, in that
    order. *)
Theorem display_categorized_results_of_records (o : self) (results : list json) :
  forallb is_host_record results = true →
  ∃ results' st,
    categorize_results results = Ok (results', st)
    ∧ ∃ s1 s2 s3 s4 s5,
        display_category o (categorized st) "fully_operational" = Ok s1
        ∧ display_category o (categorized st) "redirects" = Ok s2
        ∧ display_category o (categorized st) "errors" = Ok s3
        ∧ display_category o (categorized st) "blocked" = Ok s4
        ∧ display_category o (categorized st) "no_response" = Ok s5
        ∧ display_categorized_results o (categorized st) =
          Ok (s1 ++ s2 ++ s3 ++ s4 ++ s5).
Proof.
  intros H. eexists _, _. split; [by apply categorize_results_host_records|].
  set (st := foldl step _ results).
  assert (Hr : ∀ k, ∃ section, display_category o (categorized st) k = Ok section).
  { intros k. apply display_category_renderable. intros hosts Hk.
    pose proof (final_categorized_total results k) as Ht. fold st in Ht.
    rewrite (lookup_total_correct _ _ _ Hk) in Ht. subst hosts.
    apply bucket_renderable. }
  assert (Hn : ∀ k, k = "https_only" ∨ k = "http_only" →
            display_category o (categorized st) k = Ok []).
  { intros k Hk. unfold display_category, st.
    rewrite (bucket_not_chosen results k); [done|].
    destruct Hk as [-> | ->]; by apply (bool_decide_unpack _). }
  destruct (Hr "fully_operational") as [s1 H1], (Hr "redirects") as [s2 H2],
    (Hr "errors") as [s3 H3], (Hr "blocked") as [s4 H4],
    (Hr "no_response") as [s5 H5].
  exists s1, s2, s3, s4, s5. split_and!; try done.
  unfold display_categorized_results, category_order. cbn [display_categories].
  rewrite H1, (Hn "https_only"), (Hn "http_only"), H2, H3, H4, H5 by auto.
  cbn [mbind res_bind Py.bind app]. by rewrite app_nil_r.
Qed.

Lemma display_categorized_results_of_records_witness :
  forallb is_host_record [admin_record; created_record] = true
  ∧ ∃ results' st,
      categorize_results [admin_record; created_record] = Ok (results', st)
      ∧ ∃ s1 s2 s3 s4 s5,
          display_category (Self 1 false) (categorized st) "fully_operational" = Ok s1
          ∧ display_category (Self 1 false) (categorized st) "redirects" = Ok s2
          ∧ display_category (Self 1 false) (categorized st) "errors" = Ok s3
          ∧ display_category (Self 1 false) (categorized st) "blocked" = Ok s4
          ∧ display_category (Self 1 false) (categorized st) "no_response" = Ok s5
          ∧ display_categorized_results (Self 1 false) (categorized st) =
            Ok (s1 ++ s2 ++ s3 ++ s4 ++ s5).
Proof.
  split; [reflexivity|].
  apply (display_categorized_results_of_records (Self 1 false)
           [admin_record; created_record]).
  reflexivity.
Defined.

Lemma display_hosts_length hosts i colour lines :
  display_hosts hosts i colour = Ok lines → length lines = length hosts.
Proof.
  revert i lines. induction hosts as [|h hs IH]; intros i lines.
  - by intros [= <-].
  - cbn [display_hosts]. unfold _display_host.
    destruct (title_40 (hd_title h)); [|discriminate].
    cbn [mbind res_bind Py.bind].
    destruct (format_status (hd_status_code h)); [|discriminate].
    cbn [mbind res_bind Py.bind].
    destruct (display_hosts hs (i + 1) colour) as [ls|] eqn:E; [|discriminate].
    cbn [mbind res_bind Py.bind]. intros [= <-]. simpl. by rewrite (IH _ _ E).
Qed.

Lemma display_category_length o categorized_hosts category section :
  0 ≤ max_hosts o →
  display_category o categorized_hosts category = Ok section →
  Z.of_nat (length section) ≤ max_hosts o + 6.
Proof.
  intros Hmax. unfold display_category.
  destruct (categorized_hosts !! category) as [[|h hs]|];
    [intros [= <-]; simpl; lia| |intros [= <-]; simpl; lia].
  set (hosts := h :: hs).
  destruct (Z.gtb_spec (count hosts) (max_hosts o)) as [Hgt|Hle].
  - unfold _display_large_category, slice_to.
    destruct (Z.leb_spec 0 (max_hosts o)); [|lia].
    destruct (display_hosts _ 1 _) as [ls|] eqn:E; [|discriminate].
    cbn [mbind res_bind Py.bind]. intros [= <-].
    apply display_hosts_length in E. rewrite length_take in E.
    cbn [length app]. rewrite length_app, E.
    match goal with |- context [length (if ?b then _ else _)] =>
      destruct b; [cbn [length]; destruct (_ >? 0)|] end;
      cbn [length]; unfold count in *; lia.
  - unfold _display_small_category.
    destruct (display_hosts _ 1 _) as [ls|] eqn:E; [|discriminate].
    cbn [mbind res_bind Py.bind]. intros [= <-].
    apply display_hosts_length in E. cbn [length app]. rewrite E.
    unfold count in *. lia.
Qed.

Lemma display_categories_length o categorized_hosts categories lines :
  0 ≤ max_hosts o →
  display_categories o categorized_hosts categories = Ok lines →
  Z.of_nat (length lines) ≤ Z.of_nat (length categories) * (max_hosts o + 6).
Proof.
  intros Hmax. revert lines.
  induction categories as [|category categories IH]; intros lines.
  - intros [= <-]. simpl. lia.
  - cbn [display_categories].
    destruct (display_category o categorized_hosts category) as [s|] eqn:E;
      [|discriminate].
    cbn [mbind res_bind Py.bind].
    destruct (display_categories o categorized_hosts categories) as [ss|];
      [|discriminate].
    cbn [mbind res_bind Py.bind]. intros [= <-].
    apply (display_category_length _ _ _ _ Hmax) in E.
    specialize (IH ss eq_refl). rewrite length_app. simpl length. lia.
Qed.

(** X15: the detailed listing is bounded by [max_hosts] and not by the
    number of hosts: for a [max_hosts] that is not negative it prints at
    most [max_hosts + 6] strings for each of the seven categories. *)
Theorem display_categorized_results_bounded (o : self)
    (categorized_hosts : gmap string (list host_data)) (lines : list string) :
  0 ≤ max_hosts o →
  display_categorized_results o categorized_hosts = Ok lines →
  Z.of_nat (length lines) ≤ 7 * (max_hosts o + 6).
Proof.
  intros Hmax H.
  apply (display_categories_length _ _ _ _ Hmax) in H. exact H.
Qed.

Lemma display_categorized_results_bounded_witness :
  let o := Self 2 false in
  let categorized_hosts : gmap string (list host_data) :=
    {["fully_operational" := example_hosts]} in
  0 ≤ max_hosts o
  ∧ ∃ lines,
      display_categorized_results o categorized_hosts = Ok lines
      ∧ Z.of_nat (length lines) ≤ 7 * (max_hosts o + 6).
Proof.
  intros o categorized_hosts.
  assert (H0 : 0 ≤ max_hosts o) by (simpl; lia).
  split; [exact H0|]. eexists.
  assert (H : display_categorized_results o categorized_hosts
              = Ok (default [] (if display_categorized_results o categorized_hosts
                                is Ok l then Some l else None)))
    by reflexivity.
  split; [exact H|].
  exact (display_categorized_results_bounded o categorized_hosts _ H0 H).
Defined.

Lemma display_group_length category hosts :
  (length (Panels.display_group category hosts) ≤ 11)%nat.
Proof.
  unfold Panels.display_group. destruct hosts as [|h hs]; [simpl; lia|].
  remember (h :: hs) as hosts eqn:Eh. clear Eh. cbn [length].
  destruct (Z.leb_spec (Z.of_nat (length hosts)) 10).
  - rewrite length_fmap. lia.
  - rewrite length_app, length_fmap. unfold slice_to.
    change (0 <=? 8) with true. change (Z.to_nat 8) with 8%nat. cbv iota.
    rewrite length_take. cbn [length]. lia.
Qed.

(** X16: the panel of the interesting finds prints nothing when every group
    is empty, and otherwise at most two strings and eleven for each group,
    however long the groups are; a group of more than ten entries is shown
    by its first eight. *)
Theorem display_interesting_finds_bounded
    (interesting : list (string * list string)) :
  (Forall (λ item, item.2 = []) interesting →
   Panels.display_interesting_finds interesting = [])
  ∧ (length (Panels.display_interesting_finds interesting)
     ≤ 2 + 11 * length interesting)%nat
  ∧ ∀ category hosts, (10 < length hosts)%nat →
      ∃ header,
        Panels.display_group category hosts =
        header :: (Panels.bullet <$> take 8 hosts)
               ++ ["  " +:+ Colors.BRIGHT_YELLOW +:+ "... and "
                   +:+ str_of_int (Z.of_nat (length hosts) - 8) +:+ " more"
                   +:+ Colors.RESET].
Proof.
  split_and!.
  - intros H. unfold Panels.display_interesting_finds.
    assert (existsb (λ item : string * list string,
                       if item.2 is [] then false else true) interesting = false)
      as ->; [|done].
    induction H as [|item items Hi _ IH]; [done|]. simpl. by rewrite Hi, IH.
  - unfold Panels.display_interesting_finds.
    destruct (negb _); [simpl; lia|]. rewrite length_app. simpl length.
    assert (length (concat ((λ item, Panels.display_group item.1 item.2)
                              <$> interesting)) ≤ 11 * length interesting)%nat;
      [|lia].
    induction interesting as [|item items IH]; [simpl; lia|].
    cbn [fmap list_fmap concat]. rewrite length_app.
    pose proof (display_group_length item.1 item.2). simpl length. lia.
  - intros category hosts Hlen. unfold Panels.display_group.
    destruct hosts as [|h hs]; [simpl in Hlen; lia|].
    remember (h :: hs) as hosts eqn:Eh. clear Eh.
    destruct (Z.leb_spec (Z.of_nat (length hosts)) 10); [lia|].
    by eexists.
Qed.

Lemma display_categories_renderable o categorized_hosts categories :
  (∀ category hosts, categorized_hosts !! category = Some hosts →
     forallb renderable hosts = true) →
  ∃ lines, display_categories o categorized_hosts categories = Ok lines.
Proof.
  intros H. induction categories as [|category categories [ls IH]]; [by eexists|].
  cbn [display_categories].
  destruct (display_category_renderable o categorized_hosts category (H category))
    as [section ->].
  cbn [mbind res_bind Py.bind]. rewrite IH. by eexists.
Qed.

(** The detailed listing never raises on the buckets of host records. *)
Lemma display_categorized_results_total o results :
  ∃ lines,
    display_categorized_results o
      (categorized (foldl step (initial_state (Z.of_nat (length results))) results))
    = Ok lines.
Proof.
  apply display_categories_renderable. intros k hosts Hk.
  pose proof (final_categorized_total results k) as Ht.
  rewrite (lookup_total_correct _ _ _ Hk) in Ht. subst hosts.
  apply bucket_renderable.
Qed.

End OutputMore.

(** ** More on the orchestration *)

Module OrchestratorMore.
Import IO Orchestrator ReconCategorizer HostRecord.
Import OrchestratorFacts.

(** X17: the parsing of [--max-hosts] gives a number that is at least 1,
    the number 999999 for [all] in any case of its letters and else the
    integer the text stands for, or it exits with code 1. *)
Theorem max_hosts_of_positive (int : string → option Z) (arg : string) :
  match max_hosts_of int arg with
  | Ok n =>
      1 ≤ n ∧ ((lower arg = "all" ∧ n = 999999)
               ∨ (lower arg ≠ "all" ∧ int arg = Some n))
  | Raise e => e = SystemExit 1
  end.
Proof.
  unfold max_hosts_of. destruct (String.eqb_spec (lower arg) "all") as [E|E].
  - split; [lia|]. by left.
  - destruct (int arg) as [n|]; [|done].
    destruct (Z.ltb_spec n 1); [done|]. split; [lia|]. by right.
Qed.

(** The cleanup deletes the files it is given, one after the other. *)
Lemma cleanup_deletes temp_files files :
  cleanup temp_files files =
  (Ok (), foldl (λ fs temp_file, delete temp_file fs) files temp_files).
Proof.
  revert files. induction temp_files as [|p ps IH]; intros files; [done|].
  cbn [cleanup foldl]. unfold os_path_exists, try_except, os_remove.
  io_simpl. destruct (files !! p) as [content|] eqn:E.
  - rewrite bool_decide_true by eauto. io_simpl. rewrite E. apply IH.
  - rewrite bool_decide_false by (by intros [? ?]). io_simpl.
    rewrite IH. by rewrite delete_id.
Qed.

Lemma cleanup_lookup temp_files files :
  ∃ files',
    cleanup temp_files files = (Ok (), files')
    ∧ (∀ p, p ∈ temp_files → files' !! p = None)
    ∧ (∀ p, p ∉ temp_files → files' !! p = files !! p).
Proof.
  eexists. split; [apply cleanup_deletes|].
  revert files. induction temp_files as [|q qs IH]; intros files.
  - split; [by intros p ?%elem_of_nil|done].
  - cbn [foldl]. destruct (IH (delete q files)) as [Hin Hout]. split.
    + intros p [->|Hp]%elem_of_cons; [|by apply Hin].
      destruct (decide (q ∈ qs)); [by apply Hin|].
      rewrite Hout by done. apply lookup_delete_eq.
    + intros p Hp. apply not_elem_of_cons in Hp as [Hne Hp].
      rewrite Hout by done. by apply lookup_delete_ne.
Qed.

(** X18: the cleanup never raises; it leaves none of the files it is given
    and every other file as it was. *)
Theorem cleanup_removes_listed (temp_files : list string)
    (files : gmap string string) :
  ∃ files',
    cleanup temp_files files = (Ok (), files')
    ∧ (∀ p, p ∈ temp_files → files' !! p = None)
    ∧ (∀ p, p ∉ temp_files → files' !! p = files !! p).
Proof. apply cleanup_lookup. Qed.

Section WithCollaborators.

Context (subfinder : string → string → io completed).
Context (httpx : bool → string → io completed).
Context (json_loads : string → option json).
Context (timestamp : Z) (now : string) (temp_dir : string).
Context (display_quick_stats : gmap string Z → io unit).
Context (display_category_overview : gmap string (list host_data) → io unit).
Context (display_interesting_finds : gmap string (list json) → io unit).
Context (write_reports : Report.enhanced → string → io unit).

Abbreviation main :=
  (Orchestrator.main subfinder httpx json_loads timestamp now temp_dir
     display_quick_stats display_category_overview display_interesting_finds
     write_reports).
Abbreviation subs := (subs_file timestamp temp_dir).
Abbreviation alive := (alive_file timestamp temp_dir).

Lemma run_subfinder_true domain output_file files files1 found content l ls :
  subfinder domain output_file files = (Ok found, files1) →
  returncode found = 0 →
  files1 !! output_file = Some content →
  nonblank (lines (universal_newlines content)) = l :: ls →
  run_subfinder subfinder domain output_file files = (Ok true, files1).
Proof.
  intros Hfound Hcode Hfile Hlines.
  unfold run_subfinder, try_except. io_simpl. rewrite Hfound, Hcode.
  change (0 =? 0) with true. io_simpl. unfold os_path_exists, read.
  rewrite Hfile. rewrite bool_decide_true by eauto. io_simpl.
  rewrite Hfile. io_simpl. rewrite Hlines. reflexivity.
Qed.

Lemma run_httpx_true input_file output_file simple files1 files2 probed
    content l ls :
  files1 !! input_file = Some content →
  httpx simple (universal_newlines content) files1 = (Ok probed, files2) →
  returncode probed = 0 →
  String.eqb (stdout probed) "" = false →
  nonblank (split (stdout probed) "010") = l :: ls →
  run_httpx httpx input_file output_file simple files1 =
  (Ok true, <[output_file := written (l :: ls)]> files2).
Proof.
  intros Hfile Hprobed Hcode Hout Hlines.
  unfold run_httpx, os_path_exists, read. io_simpl.
  rewrite Hfile. rewrite bool_decide_true by eauto. io_simpl.
  rewrite Hfile. io_simpl. unfold try_except. io_simpl.
  rewrite Hprobed, Hcode, Hout. change (0 =? 0) with true. io_simpl.
  rewrite Hlines. unfold write_lines. reflexivity.
Qed.


(** X20: when the discovery fails, by a return code that is not 0 or by an
    exception of the class [Exception] such as the time running out,
    [main] exits with code 1 and leaves the files as the discovery left
    them; the probing is not run. *)
Theorem discovery_failure_exits (domain output_dir : string) (simple : bool)
    (output : OutputManager.self) (files files1 : gmap string string)
    (r : res completed) :
  subfinder domain (subs domain) files = (r, files1) →
  match r with
  | Ok found => (returncode found =? 0) = false
  | Raise e => is_Exception e = true
  end →
  main domain output_dir simple output files = (Raise (SystemExit 1), files1).
Proof.
  intros Hsub Hr.
  assert (Hrun : run_subfinder subfinder domain (subs domain) files
                 = (Ok false, files1)).
  { unfold run_subfinder, try_except, except_Exception. io_simpl. rewrite Hsub.
    destruct r as [found|e]; [by rewrite Hr|by rewrite Hr]. }
  unfold Orchestrator.main, try_except. io_simpl. by rewrite Hrun.
Qed.

(** X21: when the user interrupts the discovery, [main] exits with code 0
    and leaves the files as they were at the interrupt. *)
Theorem interrupt_exits_with_0 (domain output_dir : string) (simple : bool)
    (output : OutputManager.self) (files files1 : gmap string string) :
  subfinder domain (subs domain) files = (Raise KeyboardInterrupt, files1) →
  main domain output_dir simple output files = (Raise (SystemExit 0), files1).
Proof.
  intros Hsub.
  assert (Hrun : run_subfinder subfinder domain (subs domain) files
                 = (Raise KeyboardInterrupt, files1)).
  { unfold run_subfinder, try_except, except_Exception. io_simpl.
    by rewrite Hsub. }
  unfold Orchestrator.main, try_except. io_simpl. by rewrite Hrun.
Qed.

(** X22: when [run_httpx] returns [True] the probing has run and the output
    file holds the lines of its output that are not blank, stripped, one
    per line, and at least one. *)
Theorem run_httpx_true_writes (input_file output_file : string) (simple : bool)
    (files files' : gmap string string) :
  run_httpx httpx input_file output_file simple files = (Ok true, files') →
  ∃ content probed files2 l ls,
    files !! input_file = Some content
    ∧ httpx simple (universal_newlines content) files = (Ok probed, files2)
    ∧ returncode probed = 0
    ∧ nonblank (split (stdout probed) "010") = l :: ls
    ∧ files' = <[output_file := written (l :: ls)]> files2.
Proof.
  unfold run_httpx, os_path_exists, read. io_simpl.
  destruct (files !! input_file) as [content|] eqn:Ef.
  - rewrite bool_decide_true by eauto. io_simpl. rewrite Ef. io_simpl.
    unfold try_except, except_Exception. io_simpl.
    destruct (httpx simple (universal_newlines content) files)
      as [[probed|e] files2] eqn:Eh.
    + destruct (Z.eqb_spec (returncode probed) 0) as [Hc|Hc];
        [|cbn [andb]; discriminate].
      destruct (String.eqb (stdout probed) ""); cbn [negb andb]; [discriminate|].
      destruct (nonblank (split (stdout probed) "010")) as [|l ls] eqn:El;
        [discriminate|].
      unfold write_lines. intros [= <-].
      by exists content, probed, files2, l, ls.
    + destruct (is_Exception e); discriminate.
  - rewrite bool_decide_false by (by intros [? ?]). io_simpl. discriminate.
Qed.

(** X23: when the discovery and the probing succeed, the output of the
    probing parses to host records, and the steps of the display and the
    writing of the reports return, [main] ends normally and neither
    temporary file is left. *)
Theorem success_removes_temporary_files (domain output_dir : string)
    (simple : bool) (output : OutputManager.self)
    (files files1 files2 : gmap string string) (found probed : completed)
    (content l o : string) (ls os : list string) (r : json) (rs : list json) :
  subfinder domain (subs domain) files = (Ok found, files1) →
  returncode found = 0 →
  files1 !! subs domain = Some content →
  nonblank (lines (universal_newlines content)) = l :: ls →
  httpx simple (universal_newlines content) files1 = (Ok probed, files2) →
  returncode probed = 0 →
  String.eqb (stdout probed) "" = false →
  nonblank (split (stdout probed) "010") = o :: os →
  Parser.parse_lines json_loads
    (lines (universal_newlines (written (o :: os)))) [] = Ok (r :: rs) →
  forallb is_host_record (r :: rs) = true →
  (∀ x fs, display_quick_stats x fs = (Ok (), fs)) →
  (∀ x fs, display_category_overview x fs = (Ok (), fs)) →
  (∀ x fs, display_interesting_finds x fs = (Ok (), fs)) →
  (∀ report fs, ∃ fs', write_reports report output_dir fs = (Ok (), fs')) →
  ∃ files',
    main domain output_dir simple output files = (Ok (), files')
    ∧ files' !! subs domain = None
    ∧ files' !! alive domain = None.
Proof.
  intros Hfound Hcode Hfile Hlines Hprobed Hcode' Hout Hlines' Hparse Hrec
         Hq Hc Hi Hw.
  pose proof (run_subfinder_true _ _ _ _ _ _ _ _ Hfound Hcode Hfile Hlines) as Hsub.
  pose proof (run_httpx_true (subs domain) (alive domain) _ _ _ _ _ _ _
                Hfile Hprobed Hcode' Hout Hlines') as Hhttpx.
  set (files3 := <[alive domain := written (o :: os)]> files2) in *.
  assert (Hp : Parser.parse_httpx_results json_loads (alive domain) files3
               = (Ok (r :: rs), files3)).
  { unfold Parser.parse_httpx_results, os_path_exists, read. io_simpl.
    unfold files3. rewrite lookup_insert_eq.
    rewrite bool_decide_true by eauto. io_simpl. rewrite lookup_insert_eq.
    io_simpl. by rewrite Hparse. }
  pose proof (CategorizerFacts.categorize_results_host_records _ Hrec) as Hcat.
  destruct (OutputMore.display_categorized_results_total output (r :: rs))
    as [shown Hshown].
  set (st := foldl step _ (r :: rs)) in *.
  destruct (Hw (Report.enhanced_of (with_clean_url <$> r :: rs) (categorized st)
                  (stats st) (interesting st) domain now) files3)
    as [files4 Hsave].
  destruct (cleanup_lookup [subs domain; alive domain] files4)
    as (files' & Hclean & Hgone & _).
  exists files'. split_and!.
  - unfold Orchestrator.main, try_except. io_simpl. rewrite Hsub. io_simpl.
    rewrite Hhttpx. io_simpl. fold files3. rewrite Hp. io_simpl.
    rewrite Hcat. io_simpl. rewrite Hq. io_simpl. rewrite Hc. io_simpl.
    fold st. rewrite Hshown. io_simpl. rewrite Hi. io_simpl.
    unfold save_enhanced_results. rewrite Hsave. io_simpl.
    by rewrite Hclean.
  - apply Hgone. apply list_elem_of_here.
  - apply Hgone. apply list_elem_of_further, list_elem_of_here.
Qed.

(** X24: when the parsing of the output of the probing raises an exception
    of the class [Exception], as on a line that is a number, [main] exits
    with code 1 and the file of that output is left. *)
Theorem parse_fault_exits (domain output_dir : string)
    (simple : bool) (output : OutputManager.self)
    (files files1 files2 : gmap string string) (found probed : completed)
    (content l o : string) (ls os : list string) (e : exn) :
  subfinder domain (subs domain) files = (Ok found, files1) →
  returncode found = 0 →
  files1 !! subs domain = Some content →
  nonblank (lines (universal_newlines content)) = l :: ls →
  httpx simple (universal_newlines content) files1 = (Ok probed, files2) →
  returncode probed = 0 →
  String.eqb (stdout probed) "" = false →
  nonblank (split (stdout probed) "010") = o :: os →
  Parser.parse_lines json_loads
    (lines (universal_newlines (written (o :: os)))) [] = Raise e →
  is_Exception e = true →
  main domain output_dir simple output files =
  (Raise (SystemExit 1), <[alive domain := written (o :: os)]> files2)
  ∧ is_Some (<[alive domain := written (o :: os)]> files2 !! alive domain).
Proof.
  intros Hfound Hcode Hfile Hlines Hprobed Hcode' Hout Hlines' Hparse He.
  pose proof (run_subfinder_true _ _ _ _ _ _ _ _ Hfound Hcode Hfile Hlines) as Hsub.
  pose proof (run_httpx_true (subs domain) (alive domain) _ _ _ _ _ _ _
                Hfile Hprobed Hcode' Hout Hlines') as Hhttpx.
  set (files3 := <[alive domain := written (o :: os)]> files2) in *.
  assert (Hp : Parser.parse_httpx_results json_loads (alive domain) files3
               = (Raise e, files3)).
  { unfold Parser.parse_httpx_results, os_path_exists, read. io_simpl.
    unfold files3. rewrite lookup_insert_eq.
    rewrite bool_decide_true by eauto. io_simpl. rewrite lookup_insert_eq.
    io_simpl. by rewrite Hparse. }
  split; [|unfold files3; rewrite lookup_insert_eq; by eexists].
  unfold Orchestrator.main, try_except. io_simpl. rewrite Hsub. io_simpl.
  rewrite Hhttpx. io_simpl. fold files3. rewrite Hp.
  destruct e; try discriminate; reflexivity.
Qed.

(** X25: without its input file [run_httpx] returns [False] and changes no
    file; the probing is not run. *)
Theorem run_httpx_without_input (input_file output_file : string)
    (simple : bool) (files : gmap string string) :
  files !! input_file = None →
  run_httpx httpx input_file output_file simple files = (Ok false, files).
Proof.
  intros Hf. unfold run_httpx, os_path_exists. io_simpl.
  rewrite bool_decide_false by (rewrite Hf; by intros [? ?]). reflexivity.
Qed.

(** X26: a discovery that ends with the return code 0 but leaves no output
    file, or one with blank lines only, counts as failed: [run_subfinder]
    returns [False]. *)
Theorem run_subfinder_needs_a_host (domain output_file : string)
    (files files1 : gmap string string) (found : completed) :
  subfinder domain output_file files = (Ok found, files1) →
  match files1 !! output_file with
  | Some content => nonblank (lines (universal_newlines content)) = []
  | None => True
  end →
  run_subfinder subfinder domain output_file files = (Ok false, files1).
Proof.
  intros Hfound Hfile. unfold run_subfinder, try_except. io_simpl.
  rewrite Hfound. destruct (returncode found =? 0); [|reflexivity].
  io_simpl. unfold os_path_exists, read.
  destruct (files1 !! output_file) as [content|] eqn:E.
  - rewrite bool_decide_true by eauto. io_simpl. rewrite E. io_simpl.
    by rewrite Hfile.
  - rewrite bool_decide_false by (by intros [? ?]). reflexivity.
Qed.

End WithCollaborators.


Lemma discovery_failure_exits_witness :
  Orchestrator.main subfinder_failing httpx_failing (λ _, None) 7 "" "/tmp"
                    nothing nothing nothing (λ _, nothing) "example.com" "."
                    false (OutputManager.Self 25 false) ∅
  = (Raise (SystemExit 1), ∅).
Proof.
  apply (discovery_failure_exits subfinder_failing httpx_failing (λ _, None) 7 ""
           "/tmp" nothing nothing nothing (λ _, nothing) "example.com" "."
           false (OutputManager.Self 25 false) ∅ ∅ (Ok (Completed 2 "" "")));
    reflexivity.
Defined.

Lemma interrupt_exits_with_0_witness :
  Orchestrator.main subfinder_interrupted httpx_failing (λ _, None) 7 "" "/tmp"
                    nothing nothing nothing (λ _, nothing) "example.com" "."
                    false (OutputManager.Self 25 false) ∅
  = (Raise (SystemExit 0), ∅).
Proof.
  apply (interrupt_exits_with_0 subfinder_interrupted httpx_failing (λ _, None)
           7 "" "/tmp" nothing nothing nothing (λ _, nothing) "example.com" "."
           false (OutputManager.Self 25 false) ∅ ∅).
  reflexivity.
Defined.

Lemma run_httpx_true_writes_witness :
  let files : gmap string string := {["/tmp/subs.txt" := "a.example.com"]} in
  let httpx := httpx_answering "  first  " in
  run_httpx httpx "/tmp/subs.txt" "/tmp/alive.json" false files
  = (Ok true, <["/tmp/alive.json" := written ["first"]]> files)
  ∧ ∃ content probed files2 l ls,
      files !! "/tmp/subs.txt" = Some content
      ∧ httpx false (universal_newlines content) files = (Ok probed, files2)
      ∧ returncode probed = 0
      ∧ nonblank (split (stdout probed) "010") = l :: ls
      ∧ <["/tmp/alive.json" := written ["first"]]> files
        = <["/tmp/alive.json" := written (l :: ls)]> files2.
Proof.
  intros files httpx.
  assert (H : run_httpx httpx "/tmp/subs.txt" "/tmp/alive.json" false files
              = (Ok true, <["/tmp/alive.json" := written ["first"]]> files))
    by reflexivity.
  split; [exact H|].
  exact (run_httpx_true_writes httpx "/tmp/subs.txt" "/tmp/alive.json" false
           files _ H).
Defined.

Lemma success_removes_temporary_files_witness :
  ∃ files',
    Orchestrator.main subfinder_one_host
      (httpx_answering Parser.url_line) Parser.example_loads 7 "" "/tmp"
      nothing nothing nothing (λ _, nothing) "example.com" "." false
      (OutputManager.Self 25 false) ∅
    = (Ok (), files')
    ∧ files' !! "/tmp/subs_example.com_7.txt" = None
    ∧ files' !! "/tmp/alive_example.com_7.json" = None.
Proof.
  apply (success_removes_temporary_files subfinder_one_host
           (httpx_answering Parser.url_line) Parser.example_loads 7 "" "/tmp"
           nothing nothing nothing (λ _, nothing) "example.com" "." false
           (OutputManager.Self 25 false) ∅
           {["/tmp/subs_example.com_7.txt" := "a.example.com"]}
           {["/tmp/subs_example.com_7.txt" := "a.example.com"]}
           (Completed 0 "" "") (Completed 0 Parser.url_line "")
           "a.example.com" "a.example.com" Parser.url_line [] []
           (JObj (<["url" := JStr "http://a.example.com"]> ∅)) []);
    try reflexivity.
  intros report fs. by eexists.
Defined.

Lemma parse_fault_exits_witness :
  let files2 : gmap string string :=
    {["/tmp/subs_example.com_7.txt" := "a.example.com"]} in
  Orchestrator.main subfinder_one_host
    (httpx_answering Parser.number_line) Parser.example_loads 7 "" "/tmp"
    nothing nothing nothing (λ _, nothing) "example.com" "." false
    (OutputManager.Self 25 false) ∅
  = (Raise (SystemExit 1),
     <["/tmp/alive_example.com_7.json" := written [Parser.number_line]]> files2)
  ∧ is_Some (<["/tmp/alive_example.com_7.json" := written [Parser.number_line]]>
               files2 !! "/tmp/alive_example.com_7.json").
Proof.
  intros files2.
  apply (parse_fault_exits subfinder_one_host
           (httpx_answering Parser.number_line) Parser.example_loads 7 "" "/tmp"
           nothing nothing nothing (λ _, nothing) "example.com" "." false
           (OutputManager.Self 25 false) ∅ files2 files2
           (Completed 0 "" "") (Completed 0 Parser.number_line "")
           "a.example.com" "a.example.com" Parser.number_line [] [] TypeError);
    reflexivity.
Defined.

Lemma run_httpx_without_input_witness :
  (∅ : gmap string string) !! "/tmp/subs.txt" = None
  ∧ run_httpx (httpx_answering "x") "/tmp/subs.txt" "/tmp/alive.json" false ∅
    = (Ok false, ∅).
Proof.
  split; [reflexivity|].
  apply (run_httpx_without_input (httpx_answering "x")). reflexivity.
Defined.

Lemma run_subfinder_needs_a_host_witness :
  let subfinder : string → string → io completed := λ _ output_file files,
    (Ok (Completed 0 "" ""), <[output_file := "   "]> files) in
  run_subfinder subfinder "example.com" "/tmp/subs.txt" ∅
  = (Ok false, {["/tmp/subs.txt" := "   "]}).
Proof.
  intros subfinder.
  apply (run_subfinder_needs_a_host subfinder "example.com" "/tmp/subs.txt" ∅
           {["/tmp/subs.txt" := "   "]} (Completed 0 "" "")); reflexivity.
Defined.

End OrchestratorMore.
